(** * Booking conversation graph: nodes, routers and their properties

    A shallow embedding of [src/patterns/booking/src/state.py], [nodes.py]
    and [graph.py].

    Modelling choices, all taken from the source:
    - a Python [str] is a Rocq [string] holding its UTF-8 bytes.  UTF-8 is
      self-synchronising, so [sub in s] on the bytes is [sub in s] on the
      characters.  What Python does with characters outside ASCII is not
      in the repository: [str.lower] and the [\w] class of [re] on such
      characters are taken as given, through the class [PyText]; on ASCII
      characters they are written out;
    - [BookingData] is a [total=False] TypedDict whose values are
      [Optional[str]]: a [gmap string (option string)], where a missing key
      and a key bound to [None] are different things;
    - [BookingState] is a total TypedDict: a record.  The source reads it
      with [state.get(key, default)]; a missing key behaves exactly as the
      default, which is the value the record holds in that case ([{}],
      [False], [None]);
    - a node returns a whole new state ([{**state, ...}]); a node that can
      raise returns a [result];
    - the extraction node writes into the dictionary it read from the input
      state; the model gives the state the node returns, which is what the
      next node reads;
    - the compiled graph runs the nodes along the edges declared in
      [create_booking_graph], each node's returned dictionary replacing the
      state.  The [add_messages] reducer declared on [messages] merges by
      message identity; every node returns the list it received, extended
      or not, for which merging gives the returned list. *)

From stdpp Require Import base option list strings gmap.
From Stdlib Require Import Ascii String Bool.

Local Open Scope string_scope.

(** ** Python strings *)

Module PyStr.

Definition code (c : ascii) : N := N_of_ascii c.

Definition is_upper (c : ascii) : bool := (65 <=? code c)%N && (code c <=? 90)%N.
Definition is_lower (c : ascii) : bool := (97 <=? code c)%N && (code c <=? 122)%N.
Definition is_digit (c : ascii) : bool := (48 <=? code c)%N && (code c <=? 57)%N.

Definition is_ascii (c : ascii) : bool := (code c <? 128)%N.

(** [\w] of the [re] module on an ASCII character. *)
Definition is_word (c : ascii) : bool :=
  is_upper c || is_lower c || is_digit c || (code c =? 95)%N.

Definition lower_char (c : ascii) : ascii :=
  if is_upper c then ascii_of_N (code c + 32) else c.

(** [s.lower()] for a text of ASCII characters. *)
Fixpoint ascii_lower (s : string) : string :=
  match s with
  | EmptyString => EmptyString
  | String c s' => String (lower_char c) (ascii_lower s')
  end.

(** Every character of the text is ASCII. *)
Fixpoint ascii_only (s : string) : bool :=
  match s with
  | EmptyString => true
  | String c s' => is_ascii c && ascii_only s'
  end.

(** The text holds one of the digits [0-9]. *)
Fixpoint has_digit (s : string) : bool :=
  match s with
  | EmptyString => false
  | String c s' => is_digit c || has_digit s'
  end.

(** The last byte of a text. *)
Fixpoint last_char (s : string) : option ascii :=
  match s with
  | EmptyString => None
  | String c EmptyString => Some c
  | String _ s' => last_char s'
  end.

(** [s.startswith(p)] *)
Fixpoint startswith (p s : string) : bool :=
  match p, s with
  | EmptyString, _ => true
  | String a p', String b s' => Ascii.eqb a b && startswith p' s'
  | String _ _, EmptyString => false
  end.

(** [sub in s] on strings *)
Fixpoint str_in (sub s : string) : bool :=
  startswith sub s ||
  match s with
  | EmptyString => false
  | String _ s' => str_in sub s'
  end.

(** [sep.join(l)] *)
Fixpoint join (sep : string) (l : list string) : string :=
  match l with
  | [] => ""
  | [x] => x
  | x :: l' => x +:+ sep +:+ join sep l'
  end.

(** [x in l] for an [Optional[str]] and a list of strings; [None] is in
    no such list. *)
Definition list_in (x : option string) (l : list string) : bool :=
  match x with
  | Some t => existsb (String.eqb t) l
  | None => false
  end.

(** Python truthiness of an [Optional[str]]: [None] and [""] are falsy. *)
Definition truthy (v : option string) : bool :=
  match v with
  | Some s => negb (String.eqb s "")
  | None => false
  end.

(** How an f-string renders an [Optional[str]]. *)
Definition fstr (v : option string) : string :=
  match v with
  | Some s => s
  | None => "None"
  end.

End PyStr.

(** ** What Python knows about characters outside ASCII

    [lower] is [str.lower].  [word_before t] says whether the last
    character of [t] is in [\w], and [word_after t] whether the first
    character of [t] is; the model asks them only where that character is
    not ASCII.  The two laws are facts of Python: on ASCII text [str.lower]
    maps [A-Z] to [a-z] and nothing else, and lowercasing neither makes nor
    removes a digit [0-9]. *)

Class PyText := {
  lower : string -> string;
  word_before : string -> bool;
  word_after : string -> bool;
  lower_ascii : forall s, PyStr.ascii_only s = true -> lower s = PyStr.ascii_lower s;
  lower_digits : forall s, PyStr.has_digit (lower s) = PyStr.has_digit s
}.

(** A text model that lowercases ASCII only and answers the two [\w]
    questions as given. *)
Definition text_with (before after : string -> bool) : PyText.
Proof.
  refine {| lower := PyStr.ascii_lower;
            word_before := before;
            word_after := after |}.
  - reflexivity.
  - intros s. induction s as [|c s IH]; [reflexivity|].
    simpl. rewrite IH. f_equal.
    destruct c as [[] [] [] [] [] [] [] []]; reflexivity.
Defined.

(** The instance used to run the model on ASCII messages: it treats every
    character outside ASCII as caseless and outside [\w]. *)
#[global] Instance ascii_text : PyText :=
  text_with (fun _ => false) (fun _ => false).

(** An instance for messages whose characters outside ASCII are all
    letters, as Chinese characters are: caseless and in [\w]. *)
Definition letters_text : PyText :=
  text_with (fun _ => true) (fun _ => true).

(** ** The time pattern [\b([0-9]{1,2}):?([0-9]{2})?\b] under [re.search]

    The backtracking order of [re] is written out: two hour digits
    before one, the colon taken before it is skipped, two minute digits
    before none; the leftmost position with a match wins. *)

Module TimeRegex.
Import PyStr.

Section WithText.
Context {U : PyText}.

(** [\w] of the character just before a position, given the text before
    it; false at the start of the text. *)
Definition word_at_end (before : string) : bool :=
  match last_char before with
  | None => false
  | Some c => if is_ascii c then is_word c else word_before before
  end.

(** [\w] of the character at a position, given the text from it on;
    false at the end of the text. *)
Definition word_at_start (rest : string) : bool :=
  match rest with
  | EmptyString => false
  | String c _ => if is_ascii c then is_word c else word_after rest
  end.

(** [\b] at the position between [before] and [rest]. *)
Definition boundary (before rest : string) : bool :=
  xorb (word_at_end before) (word_at_start rest).

Definition orelse {A} (x y : option A) : option A :=
  match x with
  | Some _ => x
  | None => y
  end.

(** [([0-9]{2})?\b] at the position between [before] and [s].
    The result is group 2. *)
Definition match_minute (before s : string) : option (option string) :=
  orelse
    match s with
    | String a (String b rest) =>
        if is_digit a && is_digit b
           && boundary (before +:+ String a (String b "")) rest
        then Some (Some (String a (String b "")))
        else None
    | _ => None
    end
    (if boundary before s then Some None else None).

(** [:?([0-9]{2})?\b] *)
Definition match_colon (before s : string) : option (option string) :=
  orelse
    match s with
    | String c rest =>
        if Ascii.eqb c ":" then match_minute (before +:+ String c "") rest
        else None
    | EmptyString => None
    end
    (match_minute before s).

(** The whole pattern anchored at the position between [before] and [s].
    The result is (group 1, group 2). *)
Definition match_here (before s : string) : option (string * option string) :=
  if boundary before s then
    match s with
    | String a rest =>
        if is_digit a then
          orelse
            match rest with
            | String b rest' =>
                if is_digit b
                then (fun m => (String a (String b ""), m))
                       <$> match_colon (before +:+ String a (String b "")) rest'
                else None
            | EmptyString => None
            end
            ((fun m => (String a "", m))
               <$> match_colon (before +:+ String a "") rest)
        else None
    | EmptyString => None
    end
  else None.

(** The positions are those of the bytes.  A match starts with a digit, so
    it starts at a character, and the positions inside a character add
    nothing. *)
Fixpoint search_from (before s : string) : option (string * option string) :=
  orelse (match_here before s)
    match s with
    | EmptyString => None
    | String c s' => search_from (before +:+ String c "") s'
    end.

(** [re.search(time_pattern, s)] *)
Definition search (s : string) : option (string * option string) :=
  search_from "" s.

End WithText.
End TimeRegex.

(** ** [state.py] *)

(** A value held in a content dictionary: a string, or any other JSON
    value (null, boolean, number, array, object), none of which has a
    [lower] method. *)
Inductive value :=
  | VStr (s : string)
  | VOther.

(** One element of a message's content list: a plain string, a
    dictionary such as [{"type": "text", "text": ...}], or any other JSON
    value, which like a string cannot be indexed by ["text"]. *)
Inductive block :=
  | BlockStr (s : string)
  | BlockDict (d : gmap string value)
  | BlockOther.

(** [BaseMessage.content]: a string, or a list of blocks. *)
Inductive content :=
  | ContentStr (s : string)
  | ContentList (bs : list block).

Inductive message :=
  | HumanMessage (c : content)
  | AIMessage (c : content).

Definition message_content (m : message) : content :=
  match m with
  | HumanMessage c => c
  | AIMessage c => c
  end.

Record BookingState := mkState {
  messages : list message;
  intent : option string;
  booking_data : gmap string (option string);
  booking_confirmed : bool;
  answer : option string
}.

Definition set_intent (v : option string) (s : BookingState) : BookingState :=
  mkState (messages s) v (booking_data s) (booking_confirmed s) (answer s).
Definition set_booking_data (v : gmap string (option string)) (s : BookingState)
  : BookingState :=
  mkState (messages s) (intent s) v (booking_confirmed s) (answer s).
Definition set_booking_confirmed (v : bool) (s : BookingState) : BookingState :=
  mkState (messages s) (intent s) (booking_data s) v (answer s).
Definition set_answer (v : option string) (s : BookingState) : BookingState :=
  mkState (messages s) (intent s) (booking_data s) (booking_confirmed s) v.
Definition set_messages (v : list message) (s : BookingState) : BookingState :=
  mkState v (intent s) (booking_data s) (booking_confirmed s) (answer s).

(** ** Exceptions *)

Inductive exn :=
  | IndexError
  | TypeError
  | KeyError
  | AttributeError
  | GraphRecursionError.

Inductive result (A : Type) :=
  | Ok (a : A)
  | Raise (e : exn).
Arguments Ok {A} a.
Arguments Raise {A} e.

Definition bind {A B} (r : result A) (k : A -> result B) : result B :=
  match r with
  | Ok a => k a
  | Raise e => Raise e
  end.

Notation "x <-! r ;; k" := (bind r (fun x => k))
  (at level 100, r at next level, right associativity).

(** ** Dictionary reads *)

(** [d.get(k)] *)
Definition dict_get (d : gmap string (option string)) (k : string) : option string :=
  match d !! k with
  | Some v => v
  | None => None
  end.

(** [d.get(k, default)] *)
Definition dict_get_default (d : gmap string (option string)) (k dflt : string)
  : option string :=
  match d !! k with
  | Some v => v
  | None => Some dflt
  end.

(** [d[k]] *)
Definition dict_item (d : gmap string (option string)) (k : string)
  : result (option string) :=
  match d !! k with
  | Some v => Ok v
  | None => Raise KeyError
  end.

(** [bool(booking_data.get(k))]: the source's [has_service], [has_date],
    [has_time]. *)
Definition has_field (d : gmap string (option string)) (k : string) : bool :=
  PyStr.truthy (dict_get d k).

(** ** [nodes.py] *)

Module BookingNodes.
Import PyStr.

Section WithText.
Context {U : PyText}.

Definition detect_intent_node (state : BookingState) : BookingState :=
  set_intent (Some "book") state.

(** [state["messages"][-1].content[0]["text"]], as the string whose
    [lower] method the node calls: [AttributeError] when it is not one. *)
Definition last_message_text (msgs : list message) : result string :=
  match last msgs with
  | None => Raise IndexError
  | Some m =>
      match message_content m with
      | ContentStr EmptyString => Raise IndexError
      | ContentStr (String _ _) => Raise TypeError
      | ContentList [] => Raise IndexError
      | ContentList (BlockStr _ :: _) => Raise TypeError
      | ContentList (BlockOther :: _) => Raise TypeError
      | ContentList (BlockDict d :: _) =>
          match d !! "text" with
          | Some (VStr t) => Ok t
          | Some VOther => Raise AttributeError
          | None => Raise KeyError
          end
      end
  end.

Definition extract_service (last_message : string)
  (booking_data : gmap string (option string)) : gmap string (option string) :=
  if str_in "haircut" last_message then <["service" := Some "haircut"]> booking_data
  else if str_in "beard" last_message then <["service" := Some "beard trim"]> booking_data
  else if str_in "styling" last_message then <["service" := Some "styling"]> booking_data
  else booking_data.

Definition extract_date (last_message : string)
  (booking_data : gmap string (option string)) : gmap string (option string) :=
  if str_in "today" last_message then <["appointment_date" := Some "today"]> booking_data
  else if str_in "tomorrow" last_message
  then <["appointment_date" := Some "tomorrow"]> booking_data
  else if str_in "day after tomorrow" last_message
  then <["appointment_date" := Some "day after tomorrow"]> booking_data
  else booking_data.

Definition extract_time (last_message : string)
  (booking_data : gmap string (option string)) : gmap string (option string) :=
  match TimeRegex.search last_message with
  | Some (hour, group2) =>
      let minute := if truthy group2 then fstr group2 else "00" in
      <["appointment_time" := Some (hour +:+ ":" +:+ minute)]> booking_data
  | None => booking_data
  end.

Definition confirmation_words : list string := ["yes"; "perfect"; "ok"; "confirm"].

(** [any(word in last_message for word in confirmation_words)] *)
Definition says_yes (last_message : string) : bool :=
  existsb (fun word => str_in word last_message) confirmation_words.

Definition extract_booking_data_node (state : BookingState) : result BookingState :=
  match messages state with
  | [] => Ok state
  | _ :: _ =>
      text <-! last_message_text (messages state) ;;
      let last_message := lower text in
      let booking_data := booking_data state in
      let booking_data := extract_service last_message booking_data in
      let booking_data := extract_date last_message booking_data in
      let booking_data := extract_time last_message booking_data in
      let booking_confirmed := booking_confirmed state in
      let has_service := has_field booking_data "service" in
      let has_date := has_field booking_data "appointment_date" in
      let has_time := has_field booking_data "appointment_time" in
      let booking_confirmed :=
        if has_service && has_date && has_time then
          if says_yes last_message then true else booking_confirmed
        else booking_confirmed in
      Ok (set_booking_confirmed booking_confirmed
            (set_booking_data booking_data state))
  end.

Definition available_times : list string :=
  ["9:00"; "10:00"; "11:00"; "15:00"; "16:00"; "17:00"].

Definition newline : string := String (ascii_of_N 10) "".

Definition confirm_question (service appointment_date appointment_time : option string)
  : string :=
  "Perfect, I'm confirming your appointment:" +:+ newline +:+
  "• Service: " +:+ fstr service +:+ newline +:+
  "• Date: " +:+ fstr appointment_date +:+ newline +:+
  "• Time: " +:+ fstr appointment_time +:+ newline +:+ newline +:+
  "Do you confirm the booking?".

Definition not_available_answer (appointment_date appointment_time : option string)
  : string :=
  "Sorry, " +:+ fstr appointment_time +:+ " is not available on " +:+
  fstr appointment_date +:+ ". We have these times: " +:+
  join ", " available_times +:+ ". Which one do you prefer?".

Definition available_times_answer (appointment_date : option string) : string :=
  "We have these available times for " +:+ fstr appointment_date +:+ ": " +:+
  join ", " available_times +:+ ". Which one do you prefer?".

Definition check_availability_node (state : BookingState) : BookingState :=
  let booking_data := booking_data state in
  let service := dict_get_default booking_data "service" "service" in
  let appointment_date := dict_get_default booking_data "appointment_date" "date" in
  let appointment_time := dict_get booking_data "appointment_time" in
  if truthy appointment_time then
    if list_in appointment_time available_times then
      set_answer (Some (confirm_question service appointment_date appointment_time)) state
    else
      let updated_booking_data := delete "appointment_time" booking_data in
      set_answer (Some (not_available_answer appointment_date appointment_time))
        (set_booking_data updated_booking_data state)
  else
    set_answer (Some (available_times_answer appointment_date)) state.

Definition ask_service : string :=
  "Hi! What service do you need? We have haircut, beard trim, and styling.".

Definition ask_date (service : option string) : string :=
  "Perfect, a " +:+ fstr service +:+
  ". When do you need it? (today, tomorrow, day after tomorrow)".

Definition ask_details : string :=
  "Could you give me more details about your booking?".

Definition ask_for_information_node (state : BookingState) : result BookingState :=
  let booking_data := booking_data state in
  answer <-!
    (if negb (truthy (dict_get booking_data "service")) then Ok ask_service
     else if negb (truthy (dict_get booking_data "appointment_date")) then
       service <-! dict_item booking_data "service" ;; Ok (ask_date service)
     else Ok ask_details) ;;
  Ok (set_answer (Some answer) state).

Definition confirmed_message (service appointment_date appointment_time : option string)
  : string :=
  "Excellent! Your " +:+ fstr service +:+ " appointment for " +:+
  fstr appointment_date +:+ " at " +:+ fstr appointment_time +:+
  " is confirmed. See you soon! 🎉".

Definition booking_summary (booking_data : gmap string (option string)) : string :=
  confirmed_message
    (dict_get_default booking_data "service" "service")
    (dict_get_default booking_data "appointment_date" "date")
    (dict_get_default booking_data "appointment_time" "time").

Definition confirm_booking_node (state : BookingState) : BookingState :=
  set_answer (Some (booking_summary (booking_data state))) state.

Definition fallback_answer (state : BookingState) : string :=
  if booking_confirmed state then booking_summary (booking_data state)
  else "How else can I help you today?".

(** The text [respond_user_node] sends. *)
Definition reply_text (state : BookingState) : string :=
  if negb (truthy (answer state)) then fallback_answer state
  else fstr (answer state).

Definition respond_user_node (state : BookingState) : BookingState :=
  let answer := reply_text state in
  set_answer None
    (set_messages (messages state ++ [AIMessage (ContentStr answer)]) state).

End WithText.
End BookingNodes.

(** ** [graph.py] *)

Inductive node :=
  | detect_intent
  | extract_booking_data
  | check_availability
  | confirm_booking
  | ask_for_information
  | respond_user.

#[global] Instance node_eq_dec : EqDecision node.
Proof. solve_decision. Defined.

Module BookingGraph.
Import PyStr BookingNodes.

Section WithText.
Context {U : PyText}.

Definition route_after_extraction (state : BookingState) : node :=
  let booking_data := booking_data state in
  let has_service := has_field booking_data "service" in
  let has_date := has_field booking_data "appointment_date" in
  if has_service && has_date then check_availability else ask_for_information.

Definition route_after_availability (state : BookingState) : node :=
  let booking_data := booking_data state in
  let has_time := has_field booking_data "appointment_time" in
  let user_confirmed := booking_confirmed state in
  if has_time && user_confirmed then confirm_booking else respond_user.

(** [workflow.add_node]: the function behind each node name. *)
Definition run_node (n : node) (state : BookingState) : result BookingState :=
  match n with
  | detect_intent => Ok (detect_intent_node state)
  | extract_booking_data => extract_booking_data_node state
  | check_availability => Ok (check_availability_node state)
  | confirm_booking => Ok (confirm_booking_node state)
  | ask_for_information => ask_for_information_node state
  | respond_user => Ok (respond_user_node state)
  end.

(** [workflow.add_edge] and [workflow.add_conditional_edges]: the node
    that follows [n], decided on the state [n] returned; [None] is [END]. *)
Definition next_node (n : node) (state : BookingState) : option node :=
  match n with
  | detect_intent => Some extract_booking_data
  | extract_booking_data => Some (route_after_extraction state)
  | check_availability => Some (route_after_availability state)
  | confirm_booking => Some respond_user
  | ask_for_information => Some respond_user
  | respond_user => None
  end.

(** The compiled graph's default bound on the number of steps. *)
Definition recursion_limit : nat := 25.

(** Runs from node [n]; returns the nodes visited, each with the state it
    returned, in order. *)
Fixpoint run_from (fuel : nat) (n : node) (state : BookingState)
  : result (list (node * BookingState)) :=
  match fuel with
  | O => Raise GraphRecursionError
  | S fuel' =>
      state' <-! run_node n state ;;
      match next_node n state' with
      | None => Ok [(n, state')]
      | Some n' =>
          rest <-! run_from fuel' n' state' ;;
          Ok ((n, state') :: rest)
      end
  end.

(** [START -> detect_intent] *)
Definition trace (state : BookingState) : result (list (node * BookingState)) :=
  run_from recursion_limit detect_intent state.

Definition final_state (state : BookingState) (tr : list (node * BookingState))
  : BookingState :=
  match last tr with
  | Some (_, s) => s
  | None => state
  end.

(** [app.invoke(state)]: one traversal. *)
Definition invoke (state : BookingState) : result BookingState :=
  tr <-! trace state ;; Ok (final_state state tr).

(** The state of [test_booking_conversation] before any message. *)
Definition initial_state : BookingState :=
  mkState [] None ∅ false None.

(** A user message as the Studio sends it. *)
Definition studio_message (text : string) : message :=
  HumanMessage
    (ContentList [BlockDict {[ "type" := VStr "text"; "text" := VStr text ]}]).

End WithText.
End BookingGraph.

(** ** Notions used in the statements *)

Module Notions.
Import PyStr BookingNodes BookingGraph.

Section WithText.
Context {U : PyText}.

(** The extraction node's [has_service and has_date and has_time]. *)
Definition all_fields (d : gmap string (option string)) : bool :=
  has_field d "service" && has_field d "appointment_date" &&
  has_field d "appointment_time".

(** The latest message, lowercased, contains one of the confirmation
    words; false when there is no readable latest message. *)
Definition affirmative (state : BookingState) : bool :=
  match last_message_text (messages state) with
  | Ok text => says_yes (lower text)
  | Raise _ => false
  end.

(** One conversation turn: new messages arrive, then one traversal. *)
Definition turn (new : list message) (state : BookingState) : result BookingState :=
  invoke (set_messages (messages state ++ new) state).

(** The states a conversation can be in between traversals. *)
Inductive reachable : BookingState -> Prop :=
  | reachable_initial : reachable initial_state
  | reachable_turn state new state' :
      reachable state -> turn new state = Ok state' -> reachable state'.

Definition say (text : string) (state : BookingState) : result BookingState :=
  turn [studio_message text] state.

(** The state after the user has sent [texts], one per turn. *)
Definition after (texts : list string) : result BookingState :=
  foldl (fun r text => state <-! r ;; say text state) (Ok initial_state) texts.

(** What the three [if]/[elif] chains and the time pattern find in a
    lowercased message. *)
Definition detected_service (last_message : string) : option string :=
  if str_in "haircut" last_message then Some "haircut"
  else if str_in "beard" last_message then Some "beard trim"
  else if str_in "styling" last_message then Some "styling"
  else None.

Definition detected_date (last_message : string) : option string :=
  if str_in "today" last_message then Some "today"
  else if str_in "tomorrow" last_message then Some "tomorrow"
  else if str_in "day after tomorrow" last_message then Some "day after tomorrow"
  else None.

Definition detected_time (last_message : string) : option string :=
  match TimeRegex.search last_message with
  | Some (hour, group2) =>
      Some (hour +:+ ":" +:+ (if truthy group2 then fstr group2 else "00"))
  | None => None
  end.

(** The three extraction steps of the node, in the source's order. *)
Definition merge (last_message : string) (d : gmap string (option string))
  : gmap string (option string) :=
  extract_time last_message (extract_date last_message (extract_service last_message d)).

(** The confirmation flag the node returns, given the merged data. *)
Definition gate (confirmed : bool) (d : gmap string (option string))
  (last_message : string) : bool :=
  if all_fields d then if says_yes last_message then true else confirmed
  else confirmed.

(** [d[k] = v] when something was detected, nothing otherwise. *)
Definition put (k : string) (o : option string) (d : gmap string (option string))
  : gmap string (option string) :=
  match o with
  | Some v => <[k := Some v]> d
  | None => d
  end.

(** Every field the message yields is already set to the value it yields. *)
Definition nothing_new (last_message : string) (d : gmap string (option string))
  : Prop :=
  (forall v, detected_service last_message = Some v -> d !! "service" = Some (Some v)) /\
  (forall v, detected_date last_message = Some v ->
     d !! "appointment_date" = Some (Some v)) /\
  (forall v, detected_time last_message = Some v ->
     d !! "appointment_time" = Some (Some v)).

(** The maximal runs of word characters of a text. *)
Fixpoint words_from (current : string) (s : string) : list string :=
  match s with
  | EmptyString =>
      match current with EmptyString => [] | _ => [current] end
  | String c s' =>
      if is_word c then words_from (current +:+ String c "") s'
      else match current with
           | EmptyString => words_from "" s'
           | _ => current :: words_from "" s'
           end
  end.

Definition words (s : string) : list string := words_from "" s.

(** [word] occurs in [text] as a word of its own. *)
Definition standalone (word text : string) : bool :=
  existsb (String.eqb word) (words text).

(** [booking_confirmed] implies that service and date are set. *)
Definition confirmed_inv (state : BookingState) : Prop :=
  booking_confirmed state = true ->
  has_field (booking_data state) "service" = true /\
  has_field (booking_data state) "appointment_date" = true.

(** What a conversation shows: service, date, time, the flag and the
    latest message. *)
Definition outcome (r : result BookingState)
  : option (option string * option string * option string * bool * option message) :=
  match r with
  | Ok state =>
      Some (dict_get (booking_data state) "service",
            dict_get (booking_data state) "appointment_date",
            dict_get (booking_data state) "appointment_time",
            booking_confirmed state,
            last (messages state))
  | Raise _ => None
  end.

(** The nodes a traversal went through. *)
Definition visited (tr : list (node * BookingState)) : list node := tr.*1.

End WithText.
End Notions.

(** ** Concrete states used below *)

Module States.
Import PyStr BookingNodes BookingGraph.

(** After extraction of "haircut tomorrow 12:00 ok": every field is set,
    the user has said "ok", and 12:00 is not an offered slot. *)
Definition unavailable_confirmed : BookingState :=
  mkState [studio_message "haircut tomorrow 12:00 ok"] (Some "book")
    {[ "service" := Some "haircut"; "appointment_date" := Some "tomorrow";
       "appointment_time" := Some "12:00" ]}
    true None.

(** Service, date and an offered time are set; the user now says "yes". *)
Definition awaiting_yes : BookingState :=
  mkState [studio_message "haircut tomorrow"; AIMessage (ContentStr "...");
           studio_message "10:00"; AIMessage (ContentStr "...");
           studio_message "Yes"]
    (Some "book")
    {[ "service" := Some "haircut"; "appointment_date" := Some "tomorrow";
       "appointment_time" := Some "10:00" ]}
    false None.

(** The same state once the "yes" has been read. *)
Definition confirmed_yes : BookingState :=
  set_booking_confirmed true awaiting_yes.

(** Everything is set, and the user repeats all of it and agrees. *)
Definition repeating_details : BookingState :=
  mkState [studio_message "Haircut tomorrow at 10:00, yes"] (Some "book")
    {[ "service" := Some "haircut"; "appointment_date" := Some "tomorrow";
       "appointment_time" := Some "10:00" ]}
    false None.

(** The same state once that message has been read. *)
Definition repeated_details : BookingState :=
  set_booking_confirmed true repeating_details.



(** The state one turn after the user opens with
    "haircut tomorrow 12:00 ok". *)
Definition confirmed_without_time : BookingState :=
  mkState
    [studio_message "haircut tomorrow 12:00 ok";
     AIMessage (ContentStr
       ("Sorry, 12:00 is not available on tomorrow. We have these times: " +:+
        "9:00, 10:00, 11:00, 15:00, 16:00, 17:00. Which one do you prefer?"))]
    (Some "book")
    {[ "service" := Some "haircut"; "appointment_date" := Some "tomorrow" ]}
    true None.

End States.

(** ** Shapes of texts *)

Module Shapes.
Import PyStr.

Fixpoint all_digits (s : string) : bool :=
  match s with
  | EmptyString => true
  | String c s' => is_digit c && all_digits s'
  end.

(** One or two digits, a colon, two digits. *)
Definition clock_time (v : string) : Prop :=
  exists hour minute,
    v = hour +:+ ":" +:+ minute /\
    all_digits hour = true /\ all_digits minute = true /\
    (String.length hour = 1 \/ String.length hour = 2) /\
    String.length minute = 2.

End Shapes.

(** ** Sample traversals *)

Module Traces.
Import BookingGraph.

(** The traversal that reads the "yes" of [States.awaiting_yes]. *)
Definition yes_trace : list (node * BookingState) :=
  match trace States.awaiting_yes with
  | Ok tr => tr
  | Raise _ => []
  end.

(** The state it ends in. *)
Definition yes_final : BookingState := final_state States.awaiting_yes yes_trace.

End Traces.

(** * Properties *)

(** ** The time pattern on sample messages *)

Module TimeRegexExamples.
Import PyStr TimeRegex.
Example search_full : search "10:00" = Some ("10", Some "00").
Proof. reflexivity. Qed.
Example search_hour_only : search "at 9" = Some ("9", None).
Proof. reflexivity. Qed.
Example search_backtracks : search "100" = Some ("1", Some "00").
Proof. reflexivity. Qed.
Example search_none : search "haircut tomorrow" = None.
Proof. reflexivity. Qed.
Example search_needs_boundary : search "a12:00" = Some ("00", None).
Proof. reflexivity. Qed.
Example search_colon_then_boundary : search "12:5" = Some ("12", None).
Proof. reflexivity. Qed.
(** After a letter outside ASCII there is no word boundary, so the hour of
    "明天10:00" is not where the match starts. *)
Example search_after_letters :
  search (U := letters_text) "明天10:00" = Some ("00", None).
Proof. vm_compute. reflexivity. Qed.
Example search_before_letter :
  search (U := letters_text) "9é" = None.
Proof. vm_compute. reflexivity. Qed.
End TimeRegexExamples.

(** ** Strings *)

Section StringFacts.
Import PyStr.

Lemma append_nil_l (s : string) : "" +:+ s = s.
Proof. reflexivity. Qed.

Lemma append_cons (c : ascii) (a b : string) :
  String c a +:+ b = String c (a +:+ b).
Proof. reflexivity. Qed.

Lemma append_nil_r (s : string) : s +:+ "" = s.
Proof.
  induction s as [|c s IH]; [done|]. by rewrite append_cons, IH.
Qed.

Lemma append_assoc (a b c : string) : (a +:+ b) +:+ c = a +:+ (b +:+ c).
Proof.
  induction a as [|x a IH]; [done|]. by rewrite !append_cons, IH.
Qed.

Lemma startswith_app (p q : string) : startswith p (p +:+ q) = true.
Proof.
  induction p as [|a p IH]; [done|].
  rewrite append_cons. simpl. by rewrite Ascii.eqb_refl, IH.
Qed.

Lemma startswith_inv (p s : string) :
  startswith p s = true -> exists q, s = p +:+ q.
Proof.
  revert s. induction p as [|a p IH]; intros s H.
  - by exists s.
  - destruct s as [|b s]; [done|]. simpl in H.
    apply andb_true_iff in H as [Hab Hps].
    apply Ascii.eqb_eq in Hab as ->.
    destruct (IH _ Hps) as [q ->]. by exists q.
Qed.

Lemma str_in_here (sub s : string) :
  startswith sub s = true -> str_in sub s = true.
Proof. intros H. destruct s; simpl in *; by rewrite H. Qed.

Lemma str_in_cons (sub : string) (c : ascii) (s : string) :
  str_in sub s = true -> str_in sub (String c s) = true.
Proof.
  intros H. change (str_in sub (String c s))
    with (startswith sub (String c s) || str_in sub s).
  rewrite H. apply orb_true_r.
Qed.

(** [sub in s] holds exactly when [s] is [pre + sub + post]. *)
Lemma str_in_spec (sub s : string) :
  str_in sub s = true <-> exists pre post, s = pre +:+ sub +:+ post.
Proof.
  split.
  - induction s as [|c s IH]; simpl; intros H.
    + apply orb_true_iff in H as [H|H]; [|done].
      apply startswith_inv in H as [q ->]. by exists "", q.
    + apply orb_true_iff in H as [H|H].
      * apply startswith_inv in H as [q ->]. by exists "", q.
      * destruct (IH H) as (pre & post & ->). by exists (String c pre), post.
  - intros (pre & post & ->).
    induction pre as [|c pre IH].
    + rewrite append_nil_l. apply str_in_here, startswith_app.
    + rewrite append_cons. by apply str_in_cons.
Qed.

Lemma str_in_trans (a b c : string) :
  str_in a b = true -> str_in b c = true -> str_in a c = true.
Proof.
  intros Hab Hbc.
  apply str_in_spec in Hab as (p1 & q1 & ->).
  apply str_in_spec in Hbc as (p2 & q2 & ->).
  apply str_in_spec. exists (p2 +:+ p1), (q1 +:+ q2).
  by rewrite !append_assoc.
Qed.

Lemma str_in_app_r (sub pre s : string) :
  str_in sub s = true -> str_in sub (pre +:+ s) = true.
Proof.
  intros H. apply str_in_spec in H as (p & q & ->).
  apply str_in_spec. exists (pre +:+ p), q. by rewrite !append_assoc.
Qed.

Lemma str_in_app_l (sub s post : string) :
  str_in sub s = true -> str_in sub (s +:+ post) = true.
Proof.
  intros H. apply str_in_spec in H as (p & q & ->).
  apply str_in_spec. exists p, (q +:+ post). by rewrite !append_assoc.
Qed.

Lemma str_in_refl (s : string) : str_in s s = true.
Proof.
  apply str_in_spec. exists "", "". by rewrite append_nil_l, append_nil_r.
Qed.

End StringFacts.

(** ** Dictionary reads after a write *)

Section DictFacts.
Import PyStr.
Implicit Types d : gmap string (option string).

Lemma has_field_delete_ne d k k' :
  k <> k' -> has_field (delete k d) k' = has_field d k'.
Proof. intros Hk. unfold has_field, dict_get. by rewrite lookup_delete_ne. Qed.

Lemma has_field_lookup d k :
  has_field d k = true -> exists v, d !! k = Some (Some v) /\ v <> "".
Proof.
  unfold has_field, dict_get. destruct (d !! k) as [[v|]|]; simpl; try done.
  intros H. exists v. split; [done|].
  by apply String.eqb_neq, negb_true_iff.
Qed.

End DictFacts.

(** ** The availability check *)

Section CheckAvailability.
Import PyStr BookingNodes.

(** C1, as stated, fails: on the time-unavailable path the node removes
    [appointment_time] but leaves [booking_confirmed] as it was.  At a state
    with all three fields set, 12:00 requested and [booking_confirmed] true,
    the output still has [booking_confirmed] true. *)
Lemma check_availability_keeps_confirmed :
  ~ (forall state : BookingState,
       truthy (dict_get (booking_data state) "appointment_time") = true ->
       list_in (dict_get (booking_data state) "appointment_time") available_times
         = false ->
       booking_data (check_availability_node state) !! "appointment_time" = None /\
       booking_confirmed (check_availability_node state) = false /\
       answer (check_availability_node state) =
         Some (not_available_answer
                 (dict_get_default (booking_data state) "appointment_date" "date")
                 (dict_get (booking_data state) "appointment_time"))).
Proof.
  intros H.
  destruct (H States.unavailable_confirmed) as (_ & Hc & _); [done|done|].
  vm_compute in Hc. discriminate.
Qed.

(** C1 (amended): when [appointment_time] is set to a time that is not an
    offered slot, the availability check removes [appointment_time] from
    the booking data and touches no other key, sets the answer to the
    message that names the refused time and lists the six offered slots,
    and leaves [booking_confirmed], the messages and the intent as they
    were. *)
Theorem check_availability_unavailable_time (state : BookingState) :
  truthy (dict_get (booking_data state) "appointment_time") = true ->
  list_in (dict_get (booking_data state) "appointment_time") available_times = false ->
  let out := check_availability_node state in
  booking_data out !! "appointment_time" = None /\
  (forall k, k <> "appointment_time" ->
     booking_data out !! k = booking_data state !! k) /\
  answer out =
    Some ("Sorry, " +:+ fstr (dict_get (booking_data state) "appointment_time") +:+
          " is not available on " +:+
          fstr (dict_get_default (booking_data state) "appointment_date" "date") +:+
          ". We have these times: 9:00, 10:00, 11:00, 15:00, 16:00, 17:00" +:+
          ". Which one do you prefer?") /\
  booking_confirmed out = booking_confirmed state /\
  messages out = messages state /\
  intent out = intent state.
Proof.
  intros Ht Hin out. subst out. unfold check_availability_node.
  rewrite Ht, Hin. simpl. repeat split.
  - apply lookup_delete_eq.
  - intros k Hk. by apply lookup_delete_ne.
Qed.

Lemma check_availability_unavailable_time_witness :
  booking_data (check_availability_node States.unavailable_confirmed)
    !! "appointment_time" = None /\
  answer (check_availability_node States.unavailable_confirmed) =
    Some ("Sorry, 12:00 is not available on tomorrow. We have these times: " +:+
          "9:00, 10:00, 11:00, 15:00, 16:00, 17:00. Which one do you prefer?") /\
  booking_confirmed (check_availability_node States.unavailable_confirmed) = true.
Proof.
  destruct (check_availability_unavailable_time States.unavailable_confirmed)
    as (H1 & _ & H3 & H4 & _); [reflexivity | reflexivity |].
  split; [exact H1|]. split; [|exact H4].
  rewrite H3. reflexivity.
Defined.

End CheckAvailability.

(** ** The routers *)

Section Routers.
Import PyStr BookingNodes BookingGraph.

(** C4: the first router selects the availability check exactly when the
    service and the date are both set (truthy, as [has_service] and
    [has_date] in the source), and asks for information otherwise;
    writing or removing [appointment_time] and changing
    [booking_confirmed] never change the decision. *)
Theorem route_after_extraction_decides (state : BookingState) :
  (route_after_extraction state = check_availability <->
     has_field (booking_data state) "service" = true /\
     has_field (booking_data state) "appointment_date" = true) /\
  (route_after_extraction state = ask_for_information <->
     ~ (has_field (booking_data state) "service" = true /\
        has_field (booking_data state) "appointment_date" = true)) /\
  (forall (time : option (option string)) (confirmed : bool),
     route_after_extraction
       (set_booking_confirmed confirmed
          (set_booking_data
             (partial_alter (fun _ => time) "appointment_time" (booking_data state))
             state))
     = route_after_extraction state).
Proof.
  unfold route_after_extraction.
  split; [|split].
  - destruct (has_field (booking_data state) "service"),
      (has_field (booking_data state) "appointment_date"); simpl;
      intuition congruence.
  - destruct (has_field (booking_data state) "service"),
      (has_field (booking_data state) "appointment_date"); simpl;
      intuition congruence.
  - intros time confirmed. simpl. unfold has_field, dict_get.
    by rewrite !lookup_partial_alter_ne.
Qed.

End Routers.

(** ** Asking for missing information *)

Section AskForInformation.
Import PyStr BookingNodes.

Lemma ask_date_mentions (service : string) :
  str_in service (ask_date (Some service)) = true.
Proof.
  unfold ask_date, fstr. apply str_in_app_r, str_in_app_l, str_in_refl.
Qed.

Lemma ask_for_information_returns (state : BookingState) :
  exists question,
    ask_for_information_node state = Ok (set_answer (Some question) state).
Proof.
  unfold ask_for_information_node.
  destruct (truthy (dict_get (booking_data state) "service")) eqn:Hs; simpl;
    [|by eexists].
  destruct (truthy (dict_get (booking_data state) "appointment_date")); simpl;
    [by eexists|].
  destruct (has_field_lookup _ _ Hs) as (service & Hl & _).
  unfold dict_item. rewrite Hl. by eexists.
Qed.

(** C8: the node never raises and only writes the answer.  The answer is
    the service question when the service is not set; otherwise, when the
    date is not set, the date question, which contains the service already
    known; and the generic request for details when both are set. *)
Theorem ask_for_information_question (state : BookingState) :
  exists question,
    ask_for_information_node state = Ok (set_answer (Some question) state) /\
    (has_field (booking_data state) "service" = false ->
       question =
         "Hi! What service do you need? We have haircut, beard trim, and styling.") /\
    (has_field (booking_data state) "service" = true ->
     has_field (booking_data state) "appointment_date" = false ->
       exists service,
         booking_data state !! "service" = Some (Some service) /\
         question = "Perfect, a " +:+ service +:+
                    ". When do you need it? (today, tomorrow, day after tomorrow)" /\
         str_in service question = true) /\
    (has_field (booking_data state) "service" = true ->
     has_field (booking_data state) "appointment_date" = true ->
       question = "Could you give me more details about your booking?").
Proof.
  unfold ask_for_information_node.
  destruct (has_field (booking_data state) "service") eqn:Hs.
  - destruct (has_field_lookup _ _ Hs) as (service & Hl & Hne).
    destruct (has_field (booking_data state) "appointment_date") eqn:Hd.
    + exists ask_details. unfold has_field in Hs, Hd. rewrite Hs, Hd. simpl.
      repeat split; done.
    + exists (ask_date (Some service)).
      unfold has_field in Hs, Hd. rewrite Hs, Hd. simpl.
      unfold dict_item. rewrite Hl. simpl.
      repeat split; try done.
      intros _ _. exists service. split; [done|]. split; [done|].
      exact (ask_date_mentions service).
  - exists ask_service. unfold has_field in Hs. rewrite Hs. simpl.
    repeat split; done.
Qed.

End AskForInformation.

(** ** Data extraction *)

Section Extraction.
Import PyStr BookingNodes BookingGraph Notions.
Context {U : PyText}.
Implicit Types d : gmap string (option string).

Lemma extract_service_put text d :
  extract_service text d = put "service" (detected_service text) d.
Proof.
  unfold extract_service, detected_service.
  repeat (case (str_in _ text); [reflexivity|]). reflexivity.
Qed.

Lemma extract_date_put text d :
  extract_date text d = put "appointment_date" (detected_date text) d.
Proof.
  unfold extract_date, detected_date.
  repeat (case (str_in _ text); [reflexivity|]). reflexivity.
Qed.

Lemma extract_time_put text d :
  extract_time text d = put "appointment_time" (detected_time text) d.
Proof.
  unfold extract_time, detected_time.
  destruct (TimeRegex.search text) as [[hour group2]|]; reflexivity.
Qed.

Lemma merge_put text d :
  merge text d =
  put "appointment_time" (detected_time text)
    (put "appointment_date" (detected_date text)
       (put "service" (detected_service text) d)).
Proof.
  unfold merge. by rewrite extract_service_put, extract_date_put, extract_time_put.
Qed.

Lemma lookup_put k o d k' :
  put k o d !! k' =
  if decide (k = k') then
    match o with Some v => Some (Some v) | None => d !! k' end
  else d !! k'.
Proof.
  destruct o as [v|]; simpl.
  - rewrite lookup_insert. by case_decide.
  - by case_decide.
Qed.

(** Merging the same message a second time changes nothing. *)
Lemma merge_idempotent text d : merge text (merge text d) = merge text d.
Proof.
  apply map_eq. intros k. rewrite !merge_put, !lookup_put.
  repeat case_decide; try done;
    destruct (detected_time text), (detected_date text), (detected_service text);
    done.
Qed.

Lemma merge_nothing_new text d : nothing_new text d -> merge text d = d.
Proof.
  intros (Hs & Hd & Ht). rewrite merge_put.
  assert (put "service" (detected_service text) d = d) as ->.
  { destruct (detected_service text) as [v|]; [|done]. by apply insert_id, Hs. }
  assert (put "appointment_date" (detected_date text) d = d) as ->.
  { destruct (detected_date text) as [v|]; [|done]. by apply insert_id, Hd. }
  destruct (detected_time text) as [v|]; [|done]. by apply insert_id, Ht.
Qed.

(** What the node returns once the latest message has been read. *)
Lemma extract_read (state : BookingState) (text : string) :
  last_message_text (messages state) = Ok text ->
  extract_booking_data_node state =
  Ok (set_booking_confirmed
        (gate (booking_confirmed state)
           (merge (lower text) (booking_data state)) (lower text))
        (set_booking_data (merge (lower text) (booking_data state)) state)).
Proof.
  intros Ht. unfold extract_booking_data_node.
  destruct (messages state) as [|m ms] eqn:Hm; [done|].
  rewrite Ht. reflexivity.
Qed.

(** The node returns exactly when the transcript is empty or its latest
    message can be read. *)
Lemma extract_inv (state state' : BookingState) :
  extract_booking_data_node state = Ok state' ->
  (messages state = [] /\ state' = state) \/
  (exists text,
     last_message_text (messages state) = Ok text /\
     state' =
       set_booking_confirmed
         (gate (booking_confirmed state)
            (merge (lower text) (booking_data state)) (lower text))
         (set_booking_data (merge (lower text) (booking_data state)) state)).
Proof.
  intros H. destruct (decide (messages state = [])) as [Hm|Hm].
  - left. split; [done|]. unfold extract_booking_data_node in H.
    rewrite Hm in H. congruence.
  - right. destruct (last_message_text (messages state)) as [text|e] eqn:Ht.
    + exists text. split; [done|].
      rewrite (extract_read _ _ Ht) in H. congruence.
    + unfold extract_booking_data_node in H. rewrite Ht in H.
      destruct (messages state); done.
Qed.

Lemma extract_raises (state : BookingState) (e : exn) :
  messages state <> [] ->
  last_message_text (messages state) = Raise e ->
  extract_booking_data_node state = Raise e.
Proof.
  intros Hm Ht. unfold extract_booking_data_node.
  destruct (messages state) as [|m ms] eqn:Hms; [done|]. by rewrite Ht.
Qed.

(** C9: on an empty transcript the node returns the state it was given:
    messages, intent, booking data, confirmation flag and answer are the
    input's. *)
Theorem extract_empty_transcript (state : BookingState) :
  messages state = [] ->
  extract_booking_data_node state = Ok state.
Proof.
  intros H. unfold extract_booking_data_node. by rewrite H.
Qed.

(** C3: whenever the node returns, the flag it returns is the old flag,
    or true when service, date and time are all set in the merged booking
    data and the lowercased latest message contains "yes", "perfect", "ok"
    or "confirm".  So the flag goes from false to true only under both
    conditions, keeps its value when either fails, and never goes from
    true to false. *)
Theorem extract_confirmation_gate (state state' : BookingState) :
  extract_booking_data_node state = Ok state' ->
  let complete :=
    has_field (booking_data state') "service"
    && has_field (booking_data state') "appointment_date"
    && has_field (booking_data state') "appointment_time" in
  let said_yes :=
    match last_message_text (messages state) with
    | Ok text =>
        str_in "yes" (lower text) || str_in "perfect" (lower text)
        || str_in "ok" (lower text) || str_in "confirm" (lower text)
    | Raise _ => false
    end in
  booking_confirmed state' = booking_confirmed state || (complete && said_yes) /\
  (booking_confirmed state = false -> booking_confirmed state' = true ->
     complete = true /\ said_yes = true) /\
  (complete && said_yes = false ->
     booking_confirmed state' = booking_confirmed state) /\
  (booking_confirmed state = true -> booking_confirmed state' = true).
Proof.
  intros H complete said_yes.
  assert (booking_confirmed state' =
            booking_confirmed state || (complete && said_yes)) as Heq.
  { subst complete said_yes.
    apply extract_inv in H as [[Hm ->]|(text & Ht & ->)].
    - rewrite Hm. simpl. by rewrite andb_false_r, orb_false_r.
    - rewrite Ht. simpl. unfold gate, all_fields, says_yes, confirmation_words.
      simpl. rewrite orb_false_r, !orb_assoc.
      destruct (has_field _ "service" && has_field _ "appointment_date"
                && has_field _ "appointment_time"),
        (str_in "yes" (lower text) || str_in "perfect" (lower text)
         || str_in "ok" (lower text) || str_in "confirm" (lower text)),
        (booking_confirmed state); done. }
  split; [exact Heq|]. rewrite Heq. split; [|split].
  - intros -> Hc. simpl in Hc. by apply andb_true_iff in Hc.
  - intros ->. apply orb_false_r.
  - intros ->. done.
Qed.

(** C7: applying the node to its own output returns that output again,
    and so does applying it again to the input state once the first
    application has written the merged data into the input's dictionary; in
    both readings the booking data after two applications is the booking
    data after one.  When every field the latest message yields is already
    set to the value it yields, one application already leaves the booking
    data as it was. *)
Theorem extract_twice (state once : BookingState) :
  extract_booking_data_node state = Ok once ->
  extract_booking_data_node once = Ok once /\
  extract_booking_data_node (set_booking_data (booking_data once) state) = Ok once /\
  (forall text,
     last_message_text (messages state) = Ok text ->
     nothing_new (lower text) (booking_data state) ->
     booking_data once = booking_data state).
Proof.
  intros H. apply extract_inv in H as [[Hm ->]|(text & Ht & ->)].
  - split; [unfold extract_booking_data_node; by rewrite Hm|].
    split; [destruct state; simpl in *; by subst|].
    intros text Ht. rewrite Hm in Ht. done.
  - set (b := merge (lower text) (booking_data state)).
    set (c := gate (booking_confirmed state) b (lower text)).
    assert (gate c b (lower text) = c) as Hc.
    { subst c. unfold gate.
      destruct (all_fields b), (says_yes (lower text)), (booking_confirmed state);
        done. }
    assert (gate (booking_confirmed state) b (lower text) = c) as Hc' by done.
    split; [|split].
    + rewrite (extract_read (set_booking_confirmed c (set_booking_data b state))
                 text Ht).
      simpl. subst b. rewrite merge_idempotent. by rewrite Hc.
    + change (extract_booking_data_node (set_booking_data b state)
              = Ok (set_booking_confirmed c (set_booking_data b state))).
      rewrite (extract_read (set_booking_data b state) text Ht).
      simpl. subst b. rewrite merge_idempotent. by rewrite Hc'.
    + intros text' Ht' Hnew. simpl.
      assert (text' = text) as -> by congruence.
      by apply merge_nothing_new.
Qed.

Lemma says_yes_ok (text : string) : str_in "ok" text = true -> says_yes text = true.
Proof.
  intros H. unfold says_yes, confirmation_words. simpl. rewrite H.
  by rewrite !orb_true_r.
Qed.

(** C10: the confirmation check is a substring test for "yes", "perfect",
    "ok" and "confirm" on the lowercased latest message.  Any message that
    contains "book" therefore passes it: whenever the node returns with
    service, date and time all set, the flag is true.  "I want to book a
    haircut tomorrow at 10:00" holds none of the four as a word of its own,
    and from the initial state it is confirmed at once. *)
Theorem book_counts_as_confirmation :
  (forall text,
     says_yes text =
       str_in "yes" text || str_in "perfect" text || str_in "ok" text
       || str_in "confirm" text) /\
  (forall (state state' : BookingState) (text : string),
     last_message_text (messages state) = Ok text ->
     str_in "book" (lower text) = true ->
     extract_booking_data_node state = Ok state' ->
     all_fields (booking_data state') = true ->
     booking_confirmed state' = true) /\
  (exists text state',
     forallb (fun word => negb (standalone word (lower text))) confirmation_words
       = true /\
     str_in "book" (lower text) = true /\
     extract_booking_data_node (set_messages [studio_message text] initial_state)
       = Ok state' /\
     all_fields (booking_data state') = true /\
     booking_confirmed state' = true).
Proof.
  split; [|split].
  - intros text. unfold says_yes, confirmation_words. simpl.
    by rewrite orb_false_r, !orb_assoc.
  - intros state state' text Ht Hbook H Hall.
    rewrite (extract_read _ _ Ht) in H. injection H as <-. simpl in *.
    unfold gate. rewrite Hall.
    rewrite says_yes_ok; [done|].
    apply (str_in_trans "ok" "book"); [reflexivity | exact Hbook].
  - exists "I want to book a haircut tomorrow at 10:00". eexists.
    assert (lower "I want to book a haircut tomorrow at 10:00"
            = "i want to book a haircut tomorrow at 10:00") as E
      by (by rewrite lower_ascii).
    rewrite E. split; [reflexivity|]. split; [reflexivity|].
    rewrite (extract_read
               (set_messages
                  [studio_message "I want to book a haircut tomorrow at 10:00"]
                  initial_state)
               "I want to book a haircut tomorrow at 10:00" eq_refl).
    split; [reflexivity|]. simpl. rewrite E.
    split; vm_compute; reflexivity.
Qed.

End Extraction.

(** Runs on sample conversations. *)

Section ExtractionRuns.
Import PyStr BookingNodes BookingGraph Notions.

Lemma extract_empty_transcript_witness :
  extract_booking_data_node initial_state = Ok initial_state.
Proof. apply (extract_empty_transcript initial_state). reflexivity. Defined.

Lemma extract_confirmation_gate_witness :
  exists state',
    extract_booking_data_node States.awaiting_yes = Ok state' /\
    booking_confirmed States.awaiting_yes = false /\
    booking_confirmed state' = true /\
    has_field (booking_data state') "service"
    && has_field (booking_data state') "appointment_date"
    && has_field (booking_data state') "appointment_time" = true /\
    str_in "yes" (lower "Yes") = true.
Proof.
  eexists. split; [reflexivity|].
  split; [reflexivity|]. split; [reflexivity|].
  destruct (extract_confirmation_gate States.awaiting_yes _ eq_refl)
    as (_ & H & _).
  destruct (H eq_refl eq_refl) as [H1 H2]. split; [exact H1|].
  reflexivity.
Defined.

Lemma extract_twice_witness :
  extract_booking_data_node States.repeating_details = Ok States.repeated_details /\
  extract_booking_data_node States.repeated_details = Ok States.repeated_details /\
  booking_data States.repeated_details = booking_data States.repeating_details.
Proof.
  split; [reflexivity|].
  destruct (extract_twice States.repeating_details States.repeated_details)
    as (H1 & _ & H2); [reflexivity|].
  split; [exact H1|].
  apply (H2 "Haircut tomorrow at 10:00, yes"); [reflexivity|].
  repeat split; intros v Hv; vm_compute in Hv; injection Hv as <-; reflexivity.
Defined.

Lemma book_counts_as_confirmation_witness :
  exists state',
    extract_booking_data_node
      (set_messages [studio_message "Book a haircut today at 9"] initial_state)
      = Ok state' /\
    booking_confirmed state' = true.
Proof.
  eexists. split; [reflexivity|].
  destruct book_counts_as_confirmation as (_ & H & _).
  eapply (H (set_messages [studio_message "Book a haircut today at 9"] initial_state));
    reflexivity.
Defined.

End ExtractionRuns.

(** ** Traversals *)

Section Traversals.
Import PyStr BookingNodes BookingGraph Notions.
Context {U : PyText}.

(** The three paths through the graph. *)
Lemma trace_inv (state : BookingState) (tr : list (node * BookingState)) :
  trace state = Ok tr ->
  exists s2,
    extract_booking_data_node (detect_intent_node state) = Ok s2 /\
    ((route_after_extraction s2 = check_availability /\
      route_after_availability (check_availability_node s2) = confirm_booking /\
      tr = [(detect_intent, detect_intent_node state);
            (extract_booking_data, s2);
            (check_availability, check_availability_node s2);
            (confirm_booking, confirm_booking_node (check_availability_node s2));
            (respond_user,
             respond_user_node (confirm_booking_node (check_availability_node s2)))])
     \/
     (route_after_extraction s2 = check_availability /\
      route_after_availability (check_availability_node s2) = respond_user /\
      tr = [(detect_intent, detect_intent_node state);
            (extract_booking_data, s2);
            (check_availability, check_availability_node s2);
            (respond_user, respond_user_node (check_availability_node s2))])
     \/
     (route_after_extraction s2 = ask_for_information /\
      exists s3,
        ask_for_information_node s2 = Ok s3 /\
        tr = [(detect_intent, detect_intent_node state);
              (extract_booking_data, s2);
              (ask_for_information, s3);
              (respond_user, respond_user_node s3)])).
Proof.
  unfold trace, recursion_limit. cbn [run_from run_node next_node bind].
  destruct (extract_booking_data_node (detect_intent_node state)) as [s2|e];
    [|done].
  intros H. exists s2. split; [done|]. revert H.
  cbn [run_from run_node next_node bind].
  destruct (route_after_extraction s2) eqn:R1;
    try (unfold route_after_extraction in R1;
         destruct (_ && _) in R1; discriminate).
  - cbn [run_from run_node next_node bind].
    destruct (route_after_availability (check_availability_node s2)) eqn:R2;
      try (unfold route_after_availability in R2;
           destruct (_ && _) in R2; discriminate);
      cbn [run_from run_node next_node bind]; intros [= <-]; auto.
  - cbn [run_from run_node next_node bind].
    destruct (ask_for_information_node s2) as [s3|e]; [|done].
    cbn [run_from run_node next_node bind]. intros [= <-].
    right. right. eauto.
Qed.

(** A traversal raises only where the extraction node does. *)
Lemma trace_total (state s2 : BookingState) :
  extract_booking_data_node (detect_intent_node state) = Ok s2 ->
  exists tr, trace state = Ok tr.
Proof.
  intros H. unfold trace, recursion_limit.
  cbn [run_from run_node next_node bind]. rewrite H.
  cbn [run_from run_node next_node bind].
  destruct (route_after_extraction s2) eqn:R1;
    try (unfold route_after_extraction in R1;
         destruct (_ && _) in R1; discriminate).
  - cbn [run_from run_node next_node bind].
    destruct (route_after_availability (check_availability_node s2)) eqn:R2;
      try (unfold route_after_availability in R2;
           destruct (_ && _) in R2; discriminate);
      cbn [run_from run_node next_node bind]; eauto.
  - cbn [run_from run_node next_node bind].
    destruct (ask_for_information_returns s2) as (q & ->).
    cbn [run_from run_node next_node bind]. eauto.
Qed.

(** C5: the second router selects the confirmation node exactly when
    [appointment_time] is set and [booking_confirmed] is true, and the
    reply node otherwise; so a traversal that goes through the confirmation
    node has both in the state the availability check returned, which is
    the state the router decides on. *)
Theorem confirm_booking_gate :
  (forall state,
     route_after_availability state = confirm_booking <->
     has_field (booking_data state) "appointment_time" = true /\
     booking_confirmed state = true) /\
  (forall state,
     route_after_availability state = respond_user <->
     ~ (has_field (booking_data state) "appointment_time" = true /\
        booking_confirmed state = true)) /\
  (forall state tr,
     trace state = Ok tr ->
     confirm_booking ∈ visited tr ->
     exists decided,
       (check_availability, decided) ∈ tr /\
       has_field (booking_data decided) "appointment_time" = true /\
       booking_confirmed decided = true).
Proof.
  assert (forall state,
     route_after_availability state = confirm_booking <->
     has_field (booking_data state) "appointment_time" = true /\
     booking_confirmed state = true) as Hgate.
  { intros state. unfold route_after_availability.
    destruct (has_field (booking_data state) "appointment_time"),
      (booking_confirmed state); simpl; intuition congruence. }
  split; [exact Hgate|]. split.
  - intros state. unfold route_after_availability.
    destruct (has_field (booking_data state) "appointment_time"),
      (booking_confirmed state); simpl; intuition congruence.
  - intros state tr Htr Hvisit.
    apply trace_inv in Htr as (s2 & _ & [(_ & R2 & ->)|[(_ & _ & ->)|(_ & s3 & _ & ->)]]).
    + exists (check_availability_node s2). split.
      * rewrite !elem_of_cons. auto.
      * by apply Hgate.
    + unfold visited in Hvisit. simpl in Hvisit.
      rewrite !elem_of_cons, elem_of_nil in Hvisit. intuition discriminate.
    + unfold visited in Hvisit. simpl in Hvisit.
      rewrite !elem_of_cons, elem_of_nil in Hvisit. intuition discriminate.
Qed.

(** A completed traversal ends in the reply node, entered from the
    confirmation node, from the availability check or from the question
    node. *)
Lemma invoke_inv (state state' : BookingState) :
  invoke state = Ok state' ->
  exists s2 s,
    extract_booking_data_node (detect_intent_node state) = Ok s2 /\
    state' = respond_user_node s /\
    (s = confirm_booking_node (check_availability_node s2) \/
     s = check_availability_node s2 \/
     exists question, s = set_answer (Some question) s2).
Proof.
  unfold invoke. destruct (trace state) as [tr|e] eqn:Htr; [|done].
  simpl. intros [= <-].
  apply trace_inv in Htr
    as (s2 & He & [(_ & _ & ->)|[(_ & _ & ->)|(_ & s3 & Ha & ->)]]);
    exists s2; eexists; (split; [exact He|]); (split; [reflexivity|]); auto.
  destruct (ask_for_information_returns s2) as (q & Hq).
  right. right. exists q. congruence.
Qed.

Lemma invoke_returns (state s2 : BookingState) :
  extract_booking_data_node (detect_intent_node state) = Ok s2 ->
  exists state', invoke state = Ok state'.
Proof.
  intros H. destruct (trace_total _ _ H) as [tr Htr].
  unfold invoke. rewrite Htr. by eexists.
Qed.

Lemma invoke_raises (state : BookingState) (e : exn) :
  extract_booking_data_node (detect_intent_node state) = Raise e ->
  invoke state = Raise e.
Proof.
  intros H. unfold invoke, trace, recursion_limit.
  cbn [run_from run_node next_node bind]. by rewrite H.
Qed.




End Traversals.

(** Runs on sample conversations. *)

Section TraversalsRuns.
Import PyStr BookingNodes BookingGraph Notions.

Lemma confirm_booking_gate_witness :
  exists tr decided,
    trace States.awaiting_yes = Ok tr /\
    confirm_booking ∈ visited tr /\
    (check_availability, decided) ∈ tr /\
    has_field (booking_data decided) "appointment_time" = true /\
    booking_confirmed decided = true.
Proof.
  destruct confirm_booking_gate as (_ & _ & H).
  destruct (trace States.awaiting_yes) as [tr|e] eqn:Htr;
    [|vm_compute in Htr; discriminate].
  assert (confirm_booking ∈ visited tr) as Hv.
  { assert (visited <$> Some tr = Some [detect_intent; extract_booking_data;
      check_availability; confirm_booking; respond_user]) as [= ->];
      [|rewrite !elem_of_cons; auto].
    assert (Some tr = match trace States.awaiting_yes with
                      | Ok tr => Some tr | Raise _ => None end) as ->
      by (by rewrite Htr).
    reflexivity. }
  destruct (H _ _ Htr Hv) as (decided & ? & ? & ?).
  exists tr, decided. auto.
Defined.



End TraversalsRuns.

(** ** What holds between traversals *)

Section Reachable.
Import PyStr BookingNodes BookingGraph Notions.
Context {U : PyText}.

Lemma detected_service_nonempty text v : detected_service text = Some v -> v <> "".
Proof.
  unfold detected_service.
  repeat (destruct (str_in _ text); [by intros [= <-]|]). done.
Qed.

Lemma detected_date_nonempty text v : detected_date text = Some v -> v <> "".
Proof.
  unfold detected_date.
  repeat (destruct (str_in _ text); [by intros [= <-]|]). done.
Qed.

Lemma merge_keeps_service text d :
  has_field d "service" = true -> has_field (merge text d) "service" = true.
Proof.
  intros H. unfold has_field, dict_get. rewrite merge_put, !lookup_put.
  repeat case_decide; try done.
  destruct (detected_service text) as [v|] eqn:Hv; [|exact H].
  simpl. by apply negb_true_iff, String.eqb_neq, (detected_service_nonempty text).
Qed.

Lemma merge_keeps_date text d :
  has_field d "appointment_date" = true ->
  has_field (merge text d) "appointment_date" = true.
Proof.
  intros H. unfold has_field, dict_get. rewrite merge_put, !lookup_put.
  repeat case_decide; try done.
  destruct (detected_date text) as [v|] eqn:Hv; [|exact H].
  simpl. by apply negb_true_iff, String.eqb_neq, (detected_date_nonempty text).
Qed.

Lemma extract_confirmed_inv (state state' : BookingState) :
  extract_booking_data_node state = Ok state' ->
  confirmed_inv state -> confirmed_inv state'.
Proof.
  intros H Hinv. apply extract_inv in H as [[_ ->]|(text & _ & ->)]; [done|].
  unfold confirmed_inv. simpl. unfold gate, all_fields.
  destruct (has_field (merge (lower text) (booking_data state)) "service") eqn:Hs,
    (has_field (merge (lower text) (booking_data state)) "appointment_date") eqn:Hd;
    simpl; try done; intros Hc.
  all: destruct (has_field (merge (lower text) (booking_data state))
                   "appointment_time"), (says_yes (lower text));
    destruct (Hinv Hc) as [Hs' Hd'];
    rewrite ?(merge_keeps_service _ _ Hs') in Hs;
    rewrite ?(merge_keeps_date _ _ Hd') in Hd; done.
Qed.

Lemma check_availability_confirmed_inv (state : BookingState) :
  confirmed_inv state -> confirmed_inv (check_availability_node state).
Proof.
  unfold check_availability_node.
  destruct (truthy (dict_get (booking_data state) "appointment_time")); [|done].
  destruct (list_in (dict_get (booking_data state) "appointment_time")
              available_times); [done|].
  unfold confirmed_inv. simpl. by rewrite !has_field_delete_ne.
Qed.

Lemma invoke_confirmed_inv (state state' : BookingState) :
  invoke state = Ok state' -> confirmed_inv state -> confirmed_inv state'.
Proof.
  intros H Hinv. apply invoke_inv in H as (s2 & s & He & -> & Hs).
  apply extract_confirmed_inv in He; [|exact Hinv].
  destruct Hs as [->|[->|[q ->]]]; try exact He.
  - by apply check_availability_confirmed_inv in He.
  - by apply check_availability_confirmed_inv in He.
Qed.

(** C2 (amended): in every state reachable from the initial state by
    traversals, whatever messages arrive in between, [booking_confirmed] is
    never true while the service or the date is not set.  The time can be
    missing: the availability check removes a refused time and leaves the
    flag. *)
Theorem confirmed_has_service_and_date (state : BookingState) :
  reachable state ->
  booking_confirmed state = true ->
  has_field (booking_data state) "service" = true /\
  has_field (booking_data state) "appointment_date" = true.
Proof.
  induction 1 as [|state new state' _ IH Hturn].
  - done.
  - by apply (invoke_confirmed_inv _ _ Hturn).
Qed.

End Reachable.

(** Runs on sample conversations. *)

Section ReachableRuns.
Import PyStr BookingNodes BookingGraph Notions.

Lemma confirmed_without_time_is_reachable :
  reachable States.confirmed_without_time.
Proof.
  apply (reachable_turn initial_state [studio_message "haircut tomorrow 12:00 ok"]).
  - apply reachable_initial.
  - vm_compute. reflexivity.
Qed.

(** C2, as stated, fails: one turn after the user opens with
    "haircut tomorrow 12:00 ok" the extraction node has set
    [booking_confirmed], the availability check has removed the refused
    time, and nothing has reset the flag. *)
Lemma confirmed_while_time_absent :
  ~ (forall state,
       reachable state -> booking_confirmed state = true ->
       has_field (booking_data state) "service" = true /\
       has_field (booking_data state) "appointment_date" = true /\
       has_field (booking_data state) "appointment_time" = true).
Proof.
  intros H.
  destruct (H _ confirmed_without_time_is_reachable) as (_ & _ & Ht); [done|].
  vm_compute in Ht. discriminate.
Qed.

Lemma confirmed_has_service_and_date_witness :
  has_field (booking_data States.confirmed_without_time) "service" = true /\
  has_field (booking_data States.confirmed_without_time) "appointment_date" = true.
Proof.
  apply (confirmed_has_service_and_date States.confirmed_without_time).
  - apply (reachable_turn initial_state [studio_message "haircut tomorrow 12:00 ok"]).
    + apply reachable_initial.
    + vm_compute. reflexivity.
  - reflexivity.
Defined.

End ReachableRuns.

(** ** The conversations of a booking, turn by turn *)

Section Scenarios.
Import PyStr BookingNodes BookingGraph Notions.

Example scenario_slots_listed :
  outcome (after ["I want a haircut tomorrow"]) =
  Some (Some "haircut", Some "tomorrow", None, false,
        Some (AIMessage (ContentStr
          ("We have these available times for tomorrow: " +:+
           "9:00, 10:00, 11:00, 15:00, 16:00, 17:00. Which one do you prefer?")))).
Proof. vm_compute. reflexivity. Qed.

Example scenario_time_offered :
  outcome (after ["I want a haircut tomorrow"; "10:00"]) =
  Some (Some "haircut", Some "tomorrow", Some "10:00", false,
        Some (AIMessage (ContentStr
          (confirm_question (Some "haircut") (Some "tomorrow") (Some "10:00"))))).
Proof. vm_compute. reflexivity. Qed.

Example scenario_confirmed :
  outcome (after ["I want a haircut tomorrow"; "10:00"; "yes"]) =
  Some (Some "haircut", Some "tomorrow", Some "10:00", true,
        Some (AIMessage (ContentStr
          "Excellent! Your haircut appointment for tomorrow at 10:00 is confirmed. See you soon! 🎉"))).
Proof. vm_compute. reflexivity. Qed.

Example scenario_time_refused :
  outcome (after ["I want a haircut tomorrow"; "12:00"]) =
  Some (Some "haircut", Some "tomorrow", None, false,
        Some (AIMessage (ContentStr
          ("Sorry, 12:00 is not available on tomorrow. We have these times: " +:+
           "9:00, 10:00, 11:00, 15:00, 16:00, 17:00. Which one do you prefer?")))).
Proof. vm_compute. reflexivity. Qed.

Example scenario_nothing_known :
  outcome (after ["hello"]) =
  Some (None, None, None, false, Some (AIMessage (ContentStr ask_service))).
Proof. vm_compute. reflexivity. Qed.

(** A stale confirmation: the refused time is removed, the flag stays, and
    the next offered time is booked without the question being put. *)
Example scenario_stale_confirmation :
  outcome (after ["haircut tomorrow 12:00 ok"; "10:00"]) =
  Some (Some "haircut", Some "tomorrow", Some "10:00", true,
        Some (AIMessage (ContentStr
          "Excellent! Your haircut appointment for tomorrow at 10:00 is confirmed. See you soon! 🎉"))).
Proof. vm_compute. reflexivity. Qed.

(** A message whose content is a plain string, as in
    [test_booking_conversation], cannot be read by the extraction node. *)
Example plain_string_content_raises :
  invoke (set_messages
            [HumanMessage (ContentStr "Hi, I want an appointment for a haircut tomorrow")]
            initial_state)
  = Raise TypeError.
Proof. vm_compute. reflexivity. Qed.

(** The third branch of the date chain is never taken: a message that
    contains "day after tomorrow" contains "tomorrow". *)
Example day_after_tomorrow_is_tomorrow :
  detected_date "the day after tomorrow" = Some "tomorrow".
Proof. reflexivity. Qed.

End Scenarios.

(** * Further properties of the nodes and of the graph *)

(** ** Characters *)

Section CharFacts.
Import PyStr.

Lemma is_digit_word (c : ascii) : is_digit c = true -> is_word c = true.
Proof. unfold is_word. intros ->. by rewrite orb_true_r. Qed.

Lemma is_digit_not_colon (c : ascii) : is_digit c = true -> Ascii.eqb c ":" = false.
Proof. destruct c as [[] [] [] [] [] [] [] []]; done. Qed.

End CharFacts.

(** ** The time pattern *)

Section TimePattern.
Import PyStr TimeRegex Shapes.
Context {U : PyText}.

Lemma search_from_no_digit (before s : string) :
  has_digit s = false -> search_from before s = None.
Proof.
  revert before. induction s as [|c s IH]; intros before H; simpl in *.
  - unfold match_here. by destruct (boundary before "").
  - apply orb_false_iff in H as [Hc Hs].
    unfold match_here. rewrite Hc.
    destruct (boundary before (String c s)); simpl; by apply IH.
Qed.

Lemma match_minute_shape (before s : string) (g : option string) :
  match_minute before s = Some g ->
  g = None \/
  exists m, g = Some m /\ all_digits m = true /\ String.length m = 2.
Proof.
  unfold match_minute.
  destruct s as [|a [|b rest]]; simpl.
  - destruct (boundary _ _); [|done]. intros [= <-]. by left.
  - destruct (boundary _ _); [|done]. intros [= <-]. by left.
  - destruct (is_digit a) eqn:Ha, (is_digit b) eqn:Hb; simpl;
      try (destruct (boundary before _); [|done]; intros [= <-]; by left).
    destruct (boundary (before +:+ String a (String b "")) rest); simpl.
    + intros [= <-]. right. eexists. split; [done|]. simpl.
      by rewrite Ha, Hb.
    + destruct (boundary before _); [|done]. intros [= <-]. by left.
Qed.

Lemma match_colon_shape (before s : string) (g : option string) :
  match_colon before s = Some g ->
  g = None \/
  exists m, g = Some m /\ all_digits m = true /\ String.length m = 2.
Proof.
  unfold match_colon. destruct s as [|c rest]; simpl.
  - apply match_minute_shape.
  - destruct (Ascii.eqb c ":").
    + destruct (match_minute (before +:+ String c "") rest) as [g'|] eqn:Hm;
        simpl.
      * intros [= <-]. by apply (match_minute_shape (before +:+ String c "") rest).
      * apply match_minute_shape.
    + simpl. apply match_minute_shape.
Qed.

Lemma match_here_shape (before s h : string) (g : option string) :
  match_here before s = Some (h, g) ->
  all_digits h = true /\
  (String.length h = 1 \/ String.length h = 2) /\
  (g = None \/
   exists m, g = Some m /\ all_digits m = true /\ String.length m = 2).
Proof.
  unfold match_here. destruct (boundary before s); [|done].
  destruct s as [|a rest]; [done|].
  destruct (is_digit a) eqn:Ha; [|done].
  assert ((fun m => (String a "", m))
            <$> match_colon (before +:+ String a "") rest = Some (h, g) ->
            all_digits h = true /\
            (String.length h = 1 \/ String.length h = 2) /\
            (g = None \/
             exists m, g = Some m /\ all_digits m = true /\ String.length m = 2))
    as Hone.
  { destruct (match_colon (before +:+ String a "") rest) as [g'|] eqn:Hc;
      [|done].
    simpl. intros [= <- <-]. simpl. rewrite Ha.
    split; [done|]. split; [by left|].
    by apply (match_colon_shape (before +:+ String a "") rest). }
  destruct rest as [|b rest']; simpl; [by apply Hone|].
  destruct (is_digit b) eqn:Hb; simpl; [|by apply Hone].
  destruct (match_colon (before +:+ String a (String b "")) rest')
    as [g'|] eqn:Hc; simpl; [|by apply Hone].
  intros [= <- <-]. simpl. rewrite Ha, Hb.
  split; [done|]. split; [by right|].
  by apply (match_colon_shape (before +:+ String a (String b "")) rest').
Qed.

Lemma search_from_shape (before s h : string) (g : option string) :
  search_from before s = Some (h, g) ->
  all_digits h = true /\
  (String.length h = 1 \/ String.length h = 2) /\
  (g = None \/
   exists m, g = Some m /\ all_digits m = true /\ String.length m = 2).
Proof.
  revert before. induction s as [|c s IH]; intros before; simpl.
  - destruct (match_here before "") as [[h' g']|] eqn:Hm; simpl; [|done].
    intros [= <- <-]. by apply (match_here_shape before "").
  - destruct (match_here before (String c s)) as [[h' g']|] eqn:Hm; simpl.
    + intros [= <- <-]. by apply (match_here_shape before (String c s)).
    + apply IH.
Qed.

End TimePattern.

(** ** More on data extraction *)

Section ExtractionMore.
Import PyStr BookingNodes BookingGraph Notions Shapes.
Context {U : PyText}.
Implicit Types d : gmap string (option string).

Lemma clock_time_nonempty (v : string) : clock_time v -> v <> "".
Proof.
  intros (hour & minute & -> & _ & _ & Hlen & _).
  destruct hour as [|c hour]; [simpl in Hlen; by destruct Hlen|]. done.
Qed.

(** What [extract_time] writes is a clock time. *)
Lemma extract_time_cases text d :
  (TimeRegex.search text = None /\ extract_time text d = d) \/
  (exists v, clock_time v /\
             extract_time text d = <["appointment_time" := Some v]> d).
Proof.
  unfold extract_time.
  destruct (TimeRegex.search text) as [[hour g]|] eqn:Hs; [|by left].
  right. apply search_from_shape in Hs as (Hh & Hlen & Hg).
  eexists. split; [|reflexivity].
  destruct Hg as [->|(m & -> & Hm & Hl)].
  - exists hour, "00". simpl. by repeat split.
  - exists hour, m. simpl.
    destruct m as [|c m]; [done|]. simpl. by repeat split.
Qed.

Lemma lookup_merge text d k :
  merge text d !! k =
  if decide ("appointment_time" = k) then
    match detected_time text with
    | Some v => Some (Some v)
    | None => d !! k
    end
  else if decide ("appointment_date" = k) then
    match detected_date text with
    | Some v => Some (Some v)
    | None => d !! k
    end
  else if decide ("service" = k) then
    match detected_service text with
    | Some v => Some (Some v)
    | None => d !! k
    end
  else d !! k.
Proof.
  rewrite merge_put, !lookup_put.
  repeat case_decide; subst; try done;
    destruct (detected_time text), (detected_date text), (detected_service text);
    done.
Qed.

Lemma detected_time_clock text v : detected_time text = Some v -> clock_time v.
Proof.
  intros H.
  destruct (extract_time_cases text ∅) as [[Hs _]|(v' & Hv' & He)].
  - unfold detected_time in H. by rewrite Hs in H.
  - rewrite extract_time_put, H in He. simpl in He.
    assert (Some (Some v) = Some (Some v')) as [= ->]; [|done].
    rewrite <- (lookup_insert_eq (∅ : gmap string (option string))
                  "appointment_time" (Some v)).
    rewrite He. by rewrite lookup_insert_eq.
Qed.

Lemma studio_message_text (text : string) :
  last_message_text [studio_message text] = Ok text.
Proof.
  unfold last_message_text, studio_message. simpl.
  rewrite lookup_insert_ne; [|done]. by rewrite lookup_singleton_eq.
Qed.

(** X1: the extraction node never loses anything.  Whenever it returns,
    every key bound before is still bound, every field that was set is
    still set, keys other than the three booking fields keep their
    values, and the messages, the intent and the answer are the input's. *)
Theorem extract_never_clears (state state' : BookingState) :
  extract_booking_data_node state = Ok state' ->
  (forall k, is_Some (booking_data state !! k) ->
             is_Some (booking_data state' !! k)) /\
  (forall k, has_field (booking_data state) k = true ->
             has_field (booking_data state') k = true) /\
  (forall k, k <> "service" -> k <> "appointment_date" ->
             k <> "appointment_time" ->
             booking_data state' !! k = booking_data state !! k) /\
  messages state' = messages state /\
  intent state' = intent state /\
  answer state' = answer state.
Proof.
  intros H. apply extract_inv in H as [[_ ->]|(text & _ & ->)]; [done|].
  simpl. split; [|split; [|split]]; [| | |done].
  - intros k Hk. rewrite lookup_merge.
    repeat case_decide; try done.
    + by destruct (detected_time (lower text)).
    + by destruct (detected_date (lower text)).
    + by destruct (detected_service (lower text)).
  - intros k Hk. unfold has_field, dict_get in *. rewrite lookup_merge.
    repeat case_decide; try done.
    + destruct (detected_time (lower text)) as [v|] eqn:Hv; [|done]. simpl.
      by apply negb_true_iff, String.eqb_neq, clock_time_nonempty,
        (detected_time_clock (lower text)).
    + destruct (detected_date (lower text)) as [v|] eqn:Hv; [|done]. simpl.
      by apply negb_true_iff, String.eqb_neq,
        (detected_date_nonempty (lower text)).
    + destruct (detected_service (lower text)) as [v|] eqn:Hv; [|done]. simpl.
      by apply negb_true_iff, String.eqb_neq,
        (detected_service_nonempty (lower text)).
  - intros k H1 H2 H3. rewrite lookup_merge. by repeat case_decide.
Qed.

Lemma detected_date_not_day_after text :
  detected_date text <> Some "day after tomorrow".
Proof.
  unfold detected_date.
  destruct (str_in "today" text); [done|].
  destruct (str_in "tomorrow" text) eqn:Ht; [done|].
  destruct (str_in "day after tomorrow" text) eqn:Hd; [|done].
  rewrite (str_in_trans "tomorrow" "day after tomorrow" text) in Ht; done.
Qed.

(** X2: the date the node writes is never "day after tomorrow": a message
    that contains it contains "tomorrow", which the chain tests first.
    Such a message leaves the date at "today" or "tomorrow"; and a stored
    "day after tomorrow" can only be one that was there before. *)
Theorem extract_never_stores_day_after_tomorrow
  (state state' : BookingState) (text : string) :
  last_message_text (messages state) = Ok text ->
  extract_booking_data_node state = Ok state' ->
  (str_in "day after tomorrow" (lower text) = true ->
     booking_data state' !! "appointment_date" = Some (Some "today") \/
     booking_data state' !! "appointment_date" = Some (Some "tomorrow")) /\
  (booking_data state' !! "appointment_date" = Some (Some "day after tomorrow") ->
     booking_data state !! "appointment_date" = Some (Some "day after tomorrow")).
Proof.
  intros Ht H. rewrite (extract_read _ _ Ht) in H. injection H as <-.
  simpl. rewrite lookup_merge.
  repeat case_decide; try done. split.
  - intros Hd. unfold detected_date.
    destruct (str_in "today" (lower text)); [by left|].
    rewrite (str_in_trans "tomorrow" "day after tomorrow" (lower text));
      [by right|done|done].
  - pose proof (detected_date_not_day_after (lower text)) as Hn.
    destruct (detected_date (lower text)) as [v|]; [|done].
    intros [= ->]. done.
Qed.

(** X3: the time the node writes is always one or two digits, a colon and
    two digits; otherwise the time is left as it was. *)
Theorem extract_time_is_clock_time (state state' : BookingState) :
  extract_booking_data_node state = Ok state' ->
  booking_data state' !! "appointment_time"
    = booking_data state !! "appointment_time" \/
  exists v, clock_time v /\
            booking_data state' !! "appointment_time" = Some (Some v).
Proof.
  intros H. apply extract_inv in H as [[_ ->]|(text & _ & ->)]; [by left|].
  simpl. rewrite lookup_merge. case_decide; [|done].
  destruct (detected_time (lower text)) as [v|] eqn:Hv; [|by left].
  right. exists v. split; [|done]. by apply (detected_time_clock (lower text)).
Qed.

(** X4: a message without a digit never touches the time. *)
Theorem extract_without_digit_keeps_time
  (state state' : BookingState) (text : string) :
  last_message_text (messages state) = Ok text ->
  has_digit text = false ->
  extract_booking_data_node state = Ok state' ->
  booking_data state' !! "appointment_time"
    = booking_data state !! "appointment_time".
Proof.
  intros Ht Hd H. rewrite (extract_read _ _ Ht) in H. injection H as <-.
  simpl. rewrite lookup_merge. case_decide; [|done].
  unfold detected_time, TimeRegex.search.
  rewrite search_from_no_digit; [done|]. by rewrite lower_digits.
Qed.

End ExtractionMore.

(** Runs on sample conversations. *)

Section ExtractionMoreRuns.
Import PyStr BookingNodes BookingGraph Notions Shapes.

Lemma extract_never_clears_witness :
  has_field (booking_data States.confirmed_yes) "appointment_time" = true /\
  messages States.confirmed_yes = messages States.awaiting_yes.
Proof.
  destruct (extract_never_clears States.awaiting_yes States.confirmed_yes)
    as (_ & H & _ & Hm & _); [reflexivity|].
  split; [|exact Hm]. apply H. reflexivity.
Defined.

Lemma extract_never_stores_day_after_tomorrow_witness :
  exists state',
    extract_booking_data_node
      (set_messages [studio_message "Haircut the day after tomorrow"] initial_state)
      = Ok state' /\
    booking_data state' !! "appointment_date" = Some (Some "tomorrow").
Proof.
  eexists. split; [reflexivity|].
  destruct (extract_never_stores_day_after_tomorrow
              (set_messages [studio_message "Haircut the day after tomorrow"]
                 initial_state) _ "Haircut the day after tomorrow"
              eq_refl eq_refl) as [H _].
  destruct (H eq_refl) as [H'|H']; [vm_compute in H'; discriminate|exact H'].
Defined.

Lemma extract_time_is_clock_time_witness :
  exists state' v,
    extract_booking_data_node
      (set_messages [studio_message "styling today at 930"] initial_state)
      = Ok state' /\
    clock_time v /\
    booking_data state' !! "appointment_time" = Some (Some v).
Proof.
  eexists.
  destruct (extract_time_is_clock_time
              (set_messages [studio_message "styling today at 930"] initial_state)
              _ eq_refl) as [H|(v & Hc & Hv)].
  - vm_compute in H. discriminate.
  - exists v. split; [reflexivity|]. split; [exact Hc|exact Hv].
Defined.

Lemma extract_without_digit_keeps_time_witness :
  booking_data States.confirmed_yes !! "appointment_time"
    = booking_data States.awaiting_yes !! "appointment_time".
Proof.
  apply (extract_without_digit_keeps_time
           States.awaiting_yes States.confirmed_yes "Yes");
    reflexivity.
Defined.

End ExtractionMoreRuns.

Section TimeRoundTrip.
Import PyStr BookingNodes TimeRegex Shapes.
Context {U : PyText}.

Lemma is_digit_ascii (c : ascii) : is_digit c = true -> is_ascii c = true.
Proof. destruct c as [[] [] [] [] [] [] [] []]; done. Qed.

(** X5: a message that is exactly a time is stored as that time: "HH:MM"
    and "H:MM" as they stand, "HH" and "H" with ":00" added. *)
Theorem extract_time_round_trip (a b c e : ascii) (d : gmap string (option string)) :
  is_digit a = true -> is_digit b = true ->
  is_digit c = true -> is_digit e = true ->
  extract_time (String a (String b (String ":" (String c (String e ""))))) d
    = <["appointment_time" :=
          Some (String a (String b (String ":" (String c (String e "")))))]> d /\
  extract_time (String a (String ":" (String c (String e "")))) d
    = <["appointment_time" :=
          Some (String a (String ":" (String c (String e ""))))]> d /\
  extract_time (String a (String b "")) d
    = <["appointment_time" := Some (String a (String b ":00"))]> d /\
  extract_time (String a "") d
    = <["appointment_time" := Some (String a ":00")]> d.
Proof.
  intros Ha Hb Hc He.
  pose proof (is_digit_ascii _ Ha) as Aa. pose proof (is_digit_ascii _ Hb) as Ab.
  pose proof (is_digit_ascii _ Hc) as Ac. pose proof (is_digit_ascii _ He) as Ae.
  pose proof (is_digit_word _ Ha) as Wa. pose proof (is_digit_word _ Hb) as Wb.
  pose proof (is_digit_word _ Hc) as Wc. pose proof (is_digit_word _ He) as We.
  pose proof (is_digit_not_colon _ Hb) as Nb.
  unfold extract_time, search.
  cbv [search_from match_here match_colon match_minute boundary word_at_end
       word_at_start append last_char orelse].
  rewrite ?Aa, ?Ab, ?Ac, ?Ae, ?Wa, ?Wb, ?Wc, ?We, ?Ha, ?Hb, ?Hc, ?He, ?Nb.
  simpl.
  rewrite ?Aa, ?Ab, ?Ac, ?Ae, ?Wa, ?Wb, ?Wc, ?We, ?Ha, ?Hb, ?Hc, ?He, ?Nb.
  simpl.
  repeat split.
Qed.

End TimeRoundTrip.

(** Runs on sample conversations. *)

Section TimeRoundTripRuns.
Import PyStr BookingNodes TimeRegex Shapes.

Lemma extract_time_round_trip_witness :
  extract_time "10:30" ∅ = <["appointment_time" := Some "10:30"]> ∅ /\
  extract_time "9" ∅ = <["appointment_time" := Some "9:00"]> ∅.
Proof.
  destruct (extract_time_round_trip "1" "0" "3" "0" ∅) as (H1 & _);
    [reflexivity..|].
  destruct (extract_time_round_trip "9" "0" "3" "0" ∅) as (_ & _ & _ & H4);
    [reflexivity..|].
  split; [exact H1|exact H4].
Defined.

End TimeRoundTripRuns.

Section ExtractionReads.
Import PyStr BookingNodes BookingGraph Notions.
Context {U : PyText}.

Lemma last_message_text_snoc (ms : list message) (m : message) :
  last_message_text (ms ++ [m]) = last_message_text [m].
Proof. unfold last_message_text. by rewrite last_snoc. Qed.

Lemma last_message_text_content (m1 m2 : message) :
  message_content m1 = message_content m2 ->
  last_message_text [m1] = last_message_text [m2].
Proof. unfold last_message_text. simpl. by intros ->. Qed.

Lemma snoc_not_nil (ms : list message) (m : message) : (ms ++ [m])%list <> [].
Proof. by destruct ms. Qed.

(** X7: the extraction node reads nothing but the content of the last
    message.  Earlier messages, and whether the last message is the user's
    or the bot's, make no difference to what it returns or raises. *)
Theorem extract_reads_last_content_only
  (state : BookingState) (ms1 ms2 : list message) (m1 m2 : message) :
  message_content m1 = message_content m2 ->
  match extract_booking_data_node (set_messages (ms1 ++ [m1]) state),
        extract_booking_data_node (set_messages (ms2 ++ [m2]) state) with
  | Ok s1, Ok s2 =>
      booking_data s1 = booking_data s2 /\
      booking_confirmed s1 = booking_confirmed s2
  | Raise e1, Raise e2 => e1 = e2
  | _, _ => False
  end.
Proof.
  intros Hc.
  assert (last_message_text (ms1 ++ [m1]) = last_message_text (ms2 ++ [m2])) as Hl.
  { rewrite !last_message_text_snoc. by apply last_message_text_content. }
  destruct (last_message_text (ms2 ++ [m2])) as [text|e] eqn:H2.
  - rewrite (extract_read (set_messages (ms1 ++ [m1]) state) text Hl).
    rewrite (extract_read (set_messages (ms2 ++ [m2]) state) text H2).
    done.
  - rewrite (extract_raises (set_messages (ms1 ++ [m1]) state) e);
      [|apply snoc_not_nil|exact Hl].
    rewrite (extract_raises (set_messages (ms2 ++ [m2]) state) e);
      [done|apply snoc_not_nil|exact H2].
Qed.

End ExtractionReads.

(** Runs on sample conversations. *)

Section ExtractionReadsRuns.
Import PyStr BookingNodes BookingGraph Notions.

Lemma extract_reads_last_content_only_witness :
  match extract_booking_data_node
          (set_messages
             ([] ++ [AIMessage (ContentList [BlockDict {[ "text" := VStr "beard today" ]}])])
             initial_state),
        extract_booking_data_node
          (set_messages
             ([studio_message "haircut"] ++
              [HumanMessage (ContentList [BlockDict {[ "text" := VStr "beard today" ]}])])
             initial_state) with
  | Ok s1, Ok s2 =>
      booking_data s1 = booking_data s2 /\
      booking_confirmed s1 = booking_confirmed s2
  | Raise e1, Raise e2 => e1 = e2
  | _, _ => False
  end.
Proof.
  apply (extract_reads_last_content_only initial_state [] [studio_message "haircut"]
           (AIMessage (ContentList [BlockDict {[ "text" := VStr "beard today" ]}]))
           (HumanMessage (ContentList [BlockDict {[ "text" := VStr "beard today" ]}]))).
  reflexivity.
Defined.

End ExtractionReadsRuns.

(** ** More on the availability check *)

Section CheckAvailabilityMore.
Import PyStr BookingNodes.

Lemma str_in_join (sep x : string) (l : list string) :
  x ∈ l -> str_in x (join sep l) = true.
Proof.
  induction l as [|y l IH]; [by intros ?%elem_of_nil|].
  intros [->|Hx]%elem_of_cons.
  - destruct l as [|z l]; simpl; [apply str_in_refl|].
    apply str_in_app_l, str_in_refl.
  - destruct l as [|z l]; [by apply elem_of_nil in Hx|].
    change (join sep (y :: z :: l)) with (y +:+ sep +:+ join sep (z :: l)).
    by apply str_in_app_r, str_in_app_r, IH.
Qed.

Lemma list_in_elem (t : string) (l : list string) :
  list_in (Some t) l = true <-> t ∈ l.
Proof.
  unfold list_in. rewrite existsb_exists. split.
  - intros (x & Hx & ->%String.eqb_eq). by apply list_elem_of_In.
  - intros H. exists t. split; [by apply list_elem_of_In|apply String.eqb_refl].
Qed.

Lemma has_field_delete_eq_time (d : gmap string (option string)) :
  has_field (delete "appointment_time" d) "appointment_time" = true -> False.
Proof. unfold has_field, dict_get. by rewrite lookup_delete_eq. Qed.

Lemma check_availability_time_offered (state : BookingState) :
  has_field (booking_data (check_availability_node state)) "appointment_time"
    = true ->
  booking_data (check_availability_node state) = booking_data state /\
  answer (check_availability_node state) =
    Some (confirm_question
            (dict_get_default (booking_data state) "service" "service")
            (dict_get_default (booking_data state) "appointment_date" "date")
            (dict_get (booking_data state) "appointment_time")) /\
  exists t, booking_data state !! "appointment_time" = Some (Some t) /\
            t ∈ available_times.
Proof.
  unfold check_availability_node.
  destruct (truthy (dict_get (booking_data state) "appointment_time")) eqn:Ht.
  - destruct (list_in (dict_get (booking_data state) "appointment_time")
                available_times) eqn:Hin; simpl.
    + intros _. split; [done|]. split; [done|].
      destruct (has_field_lookup _ _ Ht) as (t & Hl & _).
      exists t. split; [done|]. apply list_in_elem.
      unfold dict_get in Hin. by rewrite Hl in Hin.
    + by intros ?%has_field_delete_eq_time.
  - simpl. unfold has_field. by rewrite Ht.
Qed.

(** X8: the availability check writes the answer and nothing else, apart
    from removing a refused time: messages, intent, flag and every other
    key are the input's; the answer is never empty; and a time that is
    still set afterwards is one of the offered slots, the booking data then
    being untouched. *)
Theorem check_availability_frame (state : BookingState) :
  let out := check_availability_node state in
  messages out = messages state /\
  intent out = intent state /\
  booking_confirmed out = booking_confirmed state /\
  (forall k, k <> "appointment_time" ->
     booking_data out !! k = booking_data state !! k) /\
  truthy (answer out) = true /\
  (has_field (booking_data out) "appointment_time" = true ->
     booking_data out = booking_data state /\
     exists t, booking_data out !! "appointment_time" = Some (Some t) /\
               t ∈ available_times).
Proof.
  unfold check_availability_node.
  destruct (truthy (dict_get (booking_data state) "appointment_time")) eqn:Ht.
  - destruct (list_in (dict_get (booking_data state) "appointment_time")
                available_times) eqn:Hin; simpl.
    + do 5 (split; [done|]). intros _. split; [done|].
      destruct (has_field_lookup _ _ Ht) as (t & Hl & _).
      exists t. split; [done|]. apply list_in_elem.
      unfold dict_get in Hin. by rewrite Hl in Hin.
    + do 3 (split; [done|]). split; [|split; [done|]].
      * intros k Hk. by apply lookup_delete_ne.
      * by intros ?%has_field_delete_eq_time.
  - simpl. do 5 (split; [done|]). unfold has_field. by rewrite Ht.
Qed.

Lemma slot_in_answers (slot : string) (date time : option string) :
  slot ∈ available_times ->
  str_in slot (available_times_answer date) = true /\
  str_in slot (not_available_answer date time) = true.
Proof.
  intros Hslot.
  pose proof (str_in_join ", " slot available_times Hslot) as Hj.
  split.
  - unfold available_times_answer.
    by apply str_in_app_r, str_in_app_r, str_in_app_r, str_in_app_l.
  - unfold not_available_answer.
    by apply str_in_app_r, str_in_app_r, str_in_app_r, str_in_app_r,
      str_in_app_r, str_in_app_l.
Qed.

Lemma check_availability_answer_cases (state : BookingState) :
  has_field (booking_data state) "appointment_time" = false \/
  list_in (dict_get (booking_data state) "appointment_time") available_times
    = false ->
  answer (check_availability_node state) =
    Some (available_times_answer
            (dict_get_default (booking_data state) "appointment_date" "date")) \/
  answer (check_availability_node state) =
    Some (not_available_answer
            (dict_get_default (booking_data state) "appointment_date" "date")
            (dict_get (booking_data state) "appointment_time")).
Proof.
  intros Hcase. unfold check_availability_node.
  destruct (truthy (dict_get (booking_data state) "appointment_time")) eqn:Ht;
    [|by left].
  destruct Hcase as [H|H]; [unfold has_field in H; congruence|].
  rewrite H. by right.
Qed.

(** X9: whenever no time is set, or the time asked for is not offered, the
    answer names every offered slot. *)
Theorem check_availability_lists_slots (state : BookingState) (slot : string) :
  has_field (booking_data state) "appointment_time" = false \/
  list_in (dict_get (booking_data state) "appointment_time") available_times
    = false ->
  slot ∈ available_times ->
  exists a,
    answer (check_availability_node state) = Some a /\ str_in slot a = true.
Proof.
  intros Hcase Hslot.
  destruct (slot_in_answers slot
              (dict_get_default (booking_data state) "appointment_date" "date")
              (dict_get (booking_data state) "appointment_time") Hslot)
    as [Hfree Hrefused].
  destruct (check_availability_answer_cases state Hcase) as [Ha|Ha];
    rewrite Ha; eexists; (split; [reflexivity|]); assumption.
Qed.

Lemma check_availability_lists_slots_witness :
  exists a,
    answer (check_availability_node States.unavailable_confirmed) = Some a /\
    str_in "16:00" a = true.
Proof.
  apply (check_availability_lists_slots States.unavailable_confirmed "16:00").
  - right. reflexivity.
  - apply list_in_elem. reflexivity.
Defined.

(** X10: when the time asked for is offered, the answer is the
    confirmation question and repeats the service, the date and the time
    as stored. *)
Theorem check_availability_echoes_booking (state : BookingState) :
  truthy (dict_get (booking_data state) "appointment_time") = true ->
  list_in (dict_get (booking_data state) "appointment_time") available_times
    = true ->
  exists a,
    answer (check_availability_node state) = Some a /\
    str_in (fstr (dict_get_default (booking_data state) "service" "service")) a
      = true /\
    str_in (fstr (dict_get_default (booking_data state) "appointment_date" "date")) a
      = true /\
    str_in (fstr (dict_get (booking_data state) "appointment_time")) a = true /\
    str_in "Do you confirm the booking?" a = true.
Proof.
  intros Ht Hin. unfold check_availability_node. rewrite Ht, Hin.
  eexists. split; [reflexivity|]. unfold confirm_question.
  split; [|split; [|split]].
  - apply str_in_app_r, str_in_app_r, str_in_app_r, str_in_app_l, str_in_refl.
  - do 6 apply str_in_app_r. apply str_in_app_l, str_in_refl.
  - do 9 apply str_in_app_r. apply str_in_app_l, str_in_refl.
  - do 12 apply str_in_app_r. apply str_in_refl.
Qed.

Lemma check_availability_echoes_booking_witness :
  exists a,
    answer (check_availability_node States.awaiting_yes) = Some a /\
    str_in "haircut" a = true /\ str_in "tomorrow" a = true /\
    str_in "10:00" a = true /\ str_in "Do you confirm the booking?" a = true.
Proof.
  apply (check_availability_echoes_booking States.awaiting_yes); reflexivity.
Defined.

End CheckAvailabilityMore.

(** ** More on traversals *)

Section TraversalsMore.
Import PyStr BookingNodes BookingGraph Notions.
Context {U : PyText}.

Lemma route_after_extraction_check (state : BookingState) :
  route_after_extraction state = check_availability ->
  has_field (booking_data state) "service" = true /\
  has_field (booking_data state) "appointment_date" = true.
Proof.
  unfold route_after_extraction.
  destruct (has_field (booking_data state) "service"),
    (has_field (booking_data state) "appointment_date"); done.
Qed.

Lemma route_after_extraction_ask (state : BookingState) :
  route_after_extraction state = ask_for_information ->
  has_field (booking_data state) "service"
  && has_field (booking_data state) "appointment_date" = false.
Proof.
  unfold route_after_extraction.
  by destruct (has_field (booking_data state) "service"
               && has_field (booking_data state) "appointment_date").
Qed.

Lemma route_after_availability_confirm (state : BookingState) :
  route_after_availability state = confirm_booking ->
  has_field (booking_data state) "appointment_time" = true /\
  booking_confirmed state = true.
Proof.
  unfold route_after_availability.
  destruct (has_field (booking_data state) "appointment_time"),
    (booking_confirmed state); done.
Qed.

Lemma route_after_availability_respond (state : BookingState) :
  route_after_availability state = respond_user ->
  has_field (booking_data state) "appointment_time"
  && booking_confirmed state = false.
Proof.
  unfold route_after_availability.
  by destruct (has_field (booking_data state) "appointment_time"
               && booking_confirmed state).
Qed.

Lemma check_availability_keeps (state : BookingState) (k : string) :
  k <> "appointment_time" ->
  has_field (booking_data (check_availability_node state)) k
    = has_field (booking_data state) k.
Proof.
  intros Hk. unfold check_availability_node.
  destruct (truthy (dict_get (booking_data state) "appointment_time")); [|done].
  destruct (list_in (dict_get (booking_data state) "appointment_time")
              available_times); [done|].
  simpl. by apply has_field_delete_ne.
Qed.

Lemma check_availability_confirmed (state : BookingState) :
  booking_confirmed (check_availability_node state) = booking_confirmed state.
Proof.
  unfold check_availability_node.
  destruct (truthy (dict_get (booking_data state) "appointment_time")); [|done].
  by destruct (list_in (dict_get (booking_data state) "appointment_time")
                 available_times).
Qed.

(** X11: a completed traversal goes one of three ways, and its result
    tells which: through the question node when service or date is still
    missing; through the availability check alone when both are set but
    the time is missing or the booking is not confirmed; through the
    availability check and the confirmation node when everything is set
    and confirmed.  It always starts at intent detection and ends at the
    reply node. *)
Theorem traversal_paths (state : BookingState) (tr : list (node * BookingState)) :
  trace state = Ok tr ->
  let final := final_state state tr in
  (visited tr = [detect_intent; extract_booking_data; ask_for_information;
                 respond_user] /\
   has_field (booking_data final) "service"
   && has_field (booking_data final) "appointment_date" = false) \/
  (visited tr = [detect_intent; extract_booking_data; check_availability;
                 respond_user] /\
   has_field (booking_data final) "service"
   && has_field (booking_data final) "appointment_date" = true /\
   has_field (booking_data final) "appointment_time"
   && booking_confirmed final = false) \/
  (visited tr = [detect_intent; extract_booking_data; check_availability;
                 confirm_booking; respond_user] /\
   all_fields (booking_data final) = true /\
   booking_confirmed final = true).
Proof.
  intros Htr.
  apply trace_inv in Htr
    as (s2 & He & [(R1 & R2 & ->)|[(R1 & R2 & ->)|(R1 & s3 & Ha & ->)]]);
    simpl.
  - right. right. split; [done|].
    apply route_after_extraction_check in R1 as [Hs Hd].
    apply route_after_availability_confirm in R2 as [Ht Hc].
    unfold all_fields. rewrite Ht.
    rewrite !check_availability_keeps by done. by rewrite Hs, Hd.
  - right. left. split; [done|].
    apply route_after_extraction_check in R1 as [Hs Hd].
    apply route_after_availability_respond in R2.
    rewrite !check_availability_keeps by done. by rewrite Hs, Hd.
  - left. split; [done|].
    destruct (ask_for_information_returns s2) as (q & Hq).
    rewrite Hq in Ha. injection Ha as <-. simpl.
    by apply route_after_extraction_ask.
Qed.

Lemma extract_raise_inv (state : BookingState) (e : exn) :
  extract_booking_data_node state = Raise e ->
  messages state <> [] /\ last_message_text (messages state) = Raise e.
Proof.
  intros H. destruct (decide (messages state = [])) as [Hm|Hm].
  - unfold extract_booking_data_node in H. by rewrite Hm in H.
  - split; [done|].
    destruct (last_message_text (messages state)) as [text|e'] eqn:Ht.
    + by rewrite (extract_read _ _ Ht) in H.
    + rewrite (extract_raises _ _ Hm Ht) in H. congruence.
Qed.

Lemma last_message_text_errors (ms : list message) (e : exn) :
  last_message_text ms = Raise e ->
  e = IndexError \/ e = TypeError \/ e = KeyError \/ e = AttributeError.
Proof.
  unfold last_message_text. destruct (last ms) as [m|]; [|intros [= <-]; auto].
  destruct (message_content m) as [[|c s]|[|[s|d|] bs]];
    try (intros [= <-]; by auto).
  destruct (d !! "text") as [[t|]|]; [done| |]; intros [= <-]; auto.
Qed.

(** X12: a traversal raises only when the latest message cannot be read:
    the transcript is then not empty, the error is the one reading it
    gives ([IndexError], [TypeError], [KeyError], or [AttributeError] when
    the text is there but is not a string), and the step bound of the
    graph is never reached. *)
Theorem invoke_raises_only_on_unreadable (state : BookingState) (e : exn) :
  invoke state = Raise e ->
  messages state <> [] /\
  last_message_text (messages state) = Raise e /\
  (e = IndexError \/ e = TypeError \/ e = KeyError \/ e = AttributeError).
Proof.
  intros H.
  destruct (extract_booking_data_node (detect_intent_node state)) as [s2|e'] eqn:He.
  - destruct (invoke_returns _ _ He) as [s' Hs']. congruence.
  - rewrite (invoke_raises _ _ He) in H. injection H as ->.
    apply extract_raise_inv in He as [Hm Ht]. simpl in *.
    split; [done|]. split; [done|]. by apply (last_message_text_errors _ _ Ht).
Qed.

Lemma reply_text_nonempty (state : BookingState) : reply_text state <> "".
Proof.
  unfold reply_text, fallback_answer.
  destruct (answer state) as [a|]; simpl.
  - destruct (String.eqb a "") eqn:Ha; simpl.
    + by destruct (booking_confirmed state).
    + by apply String.eqb_neq.
  - by destruct (booking_confirmed state).
Qed.

Lemma respond_user_last (state : BookingState) :
  last (messages (respond_user_node state))
    = Some (AIMessage (ContentStr (reply_text state))).
Proof. simpl. apply last_snoc. Qed.

(** X13: the bot never sends an empty message.  Whatever the answer field
    holds, unset and empty included, the message the reply node appends is
    a bot message whose content is a non-empty string. *)
Theorem reply_never_empty (state : BookingState) :
  exists text,
    last (messages (respond_user_node state))
      = Some (AIMessage (ContentStr text)) /\
    text <> "".
Proof.
  exists (reply_text state). split; [apply respond_user_last|].
  apply reply_text_nonempty.
Qed.

(** X14: a traversal cannot be run again on its own result.  The bot
    message it appended has a plain string as content, so without a new
    message in list form the extraction node raises [TypeError]. *)
Theorem second_traversal_raises (state state' : BookingState) :
  invoke state = Ok state' -> invoke state' = Raise TypeError.
Proof.
  intros H. apply invoke_inv in H as (s2 & s & _ & -> & _).
  apply invoke_raises.
  apply (extract_raises (detect_intent_node (respond_user_node s))).
  - simpl. apply snoc_not_nil.
  - simpl. unfold last_message_text. rewrite last_snoc. simpl.
    pose proof (reply_text_nonempty s). by destruct (reply_text s).
Qed.

Lemma invoke_cases (state state' : BookingState) :
  invoke state = Ok state' ->
  exists s2,
    extract_booking_data_node (detect_intent_node state) = Ok s2 /\
    ((route_after_extraction s2 = check_availability /\
      route_after_availability (check_availability_node s2) = confirm_booking /\
      state' = respond_user_node
                 (confirm_booking_node (check_availability_node s2))) \/
     (route_after_extraction s2 = check_availability /\
      route_after_availability (check_availability_node s2) = respond_user /\
      state' = respond_user_node (check_availability_node s2)) \/
     (route_after_extraction s2 = ask_for_information /\
      exists s3,
        ask_for_information_node s2 = Ok s3 /\ state' = respond_user_node s3)).
Proof.
  unfold invoke. destruct (trace state) as [tr|e] eqn:Htr; [|done].
  simpl. intros [= <-].
  apply trace_inv in Htr
    as (s2 & He & [(R1 & R2 & ->)|[(R1 & R2 & ->)|(R1 & s3 & Ha & ->)]]);
    exists s2; (split; [exact He|]); eauto 10.
Qed.

Lemma merge_keeps_field text d k :
  has_field d k = true -> has_field (merge text d) k = true.
Proof.
  intros Hk. unfold has_field, dict_get in *. rewrite lookup_merge.
  repeat case_decide; try done.
  - destruct (detected_time text) as [v|] eqn:Hv; [|done]. simpl.
    by apply negb_true_iff, String.eqb_neq, clock_time_nonempty,
      (detected_time_clock text).
  - destruct (detected_date text) as [v|] eqn:Hv; [|done]. simpl.
    by apply negb_true_iff, String.eqb_neq, (detected_date_nonempty text).
  - destruct (detected_service text) as [v|] eqn:Hv; [|done]. simpl.
    by apply negb_true_iff, String.eqb_neq, (detected_service_nonempty text).
Qed.

Lemma gate_monotone (c : bool) d text : c = true -> gate c d text = true.
Proof. intros ->. unfold gate. by destruct (all_fields d), (says_yes text). Qed.

(** X15: a traversal only moves a booking forward.  It leaves the intent
    at "book"; a flag that was true stays true; service and date, once
    set, stay set; and keys other than the three booking fields keep their
    values. *)
Theorem traversal_keeps_progress (state state' : BookingState) :
  invoke state = Ok state' ->
  intent state' = Some "book" /\
  (booking_confirmed state = true -> booking_confirmed state' = true) /\
  (forall k, k <> "appointment_time" ->
     has_field (booking_data state) k = true ->
     has_field (booking_data state') k = true) /\
  (forall k, k <> "service" -> k <> "appointment_date" ->
     k <> "appointment_time" ->
     booking_data state' !! k = booking_data state !! k).
Proof.
  intros H. apply invoke_inv in H as (s2 & s & He & -> & Hs).
  assert (intent s2 = Some "book" /\
          (booking_confirmed state = true -> booking_confirmed s2 = true) /\
          (forall k, has_field (booking_data state) k = true ->
                     has_field (booking_data s2) k = true) /\
          (forall k, k <> "service" -> k <> "appointment_date" ->
                     k <> "appointment_time" ->
                     booking_data s2 !! k = booking_data state !! k))
    as (Hi & Hc & Hf & Ho).
  { apply extract_inv in He as [[_ ->]|(text & _ & ->)]; [done|]. simpl.
    split; [done|]. split; [apply gate_monotone|].
    split; [intros k; apply merge_keeps_field|].
    intros k H1 H2 H3. rewrite lookup_merge. by repeat case_decide. }
  destruct Hs as [->|[->|[q ->]]]; simpl.
  - split; [by rewrite <- Hi; unfold check_availability_node;
              destruct (truthy _); [destruct (list_in _ _)|]|].
    rewrite check_availability_confirmed. split; [done|]. split.
    + intros k Hk Hs. rewrite check_availability_keeps by done. by apply Hf.
    + intros k H1 H2 H3. rewrite <- Ho by done.
      unfold check_availability_node.
      destruct (truthy _); [destruct (list_in _ _)|]; simpl; try done.
      by apply lookup_delete_ne.
  - split; [by rewrite <- Hi; unfold check_availability_node;
              destruct (truthy _); [destruct (list_in _ _)|]|].
    rewrite check_availability_confirmed. split; [done|]. split.
    + intros k Hk Hs. rewrite check_availability_keeps by done. by apply Hf.
    + intros k H1 H2 H3. rewrite <- Ho by done.
      unfold check_availability_node.
      destruct (truthy _); [destruct (list_in _ _)|]; simpl; try done.
      by apply lookup_delete_ne.
  - split; [done|]. split; [done|]. split; [|done].
    intros k _. apply Hf.
Qed.

Lemma reply_text_answer (state : BookingState) (a : string) :
  answer state = Some a -> a <> "" -> reply_text state = a.
Proof.
  intros Ha Hne. unfold reply_text. rewrite Ha. simpl.
  apply String.eqb_neq in Hne. by rewrite Hne.
Qed.

Lemma dict_get_default_set (d : gmap string (option string)) (k dflt v : string) :
  d !! k = Some (Some v) -> dict_get_default d k dflt = Some v.
Proof. unfold dict_get_default. by intros ->. Qed.

Lemma dict_get_set (d : gmap string (option string)) (k v : string) :
  d !! k = Some (Some v) -> dict_get d k = Some v.
Proof. unfold dict_get. by intros ->. Qed.

(** X16: a booking is finalised only complete, confirmed and for an
    offered slot.  When a traversal goes through the confirmation node,
    the state it ends in has service, date and time set, the time is one
    of the offered slots, the flag is true, and the last message is the
    confirmation naming exactly these three values, no placeholder. *)
Theorem finalized_booking (state : BookingState) (tr : list (node * BookingState)) :
  trace state = Ok tr ->
  confirm_booking ∈ visited tr ->
  let final := final_state state tr in
  exists service date time,
    booking_data final !! "service" = Some (Some service) /\
    booking_data final !! "appointment_date" = Some (Some date) /\
    booking_data final !! "appointment_time" = Some (Some time) /\
    time ∈ available_times /\
    booking_confirmed final = true /\
    last (messages final) =
      Some (AIMessage (ContentStr
        ("Excellent! Your " +:+ service +:+ " appointment for " +:+ date +:+
         " at " +:+ time +:+ " is confirmed. See you soon! 🎉"))).
Proof.
  intros Htr Hv.
  apply trace_inv in Htr
    as (s2 & He & [(R1 & R2 & ->)|[(R1 & R2 & ->)|(R1 & s3 & Ha & ->)]]);
    simpl.
  - apply route_after_extraction_check in R1 as [Hs Hd].
    apply route_after_availability_confirm in R2 as [Ht Hc].
    destruct (check_availability_time_offered s2 Ht) as (Hbd & _ & t & Hl & Hin).
    destruct (has_field_lookup _ _ Hs) as (service & Hls & _).
    destruct (has_field_lookup _ _ Hd) as (date & Hld & _).
    exists service, date, t. rewrite Hbd.
    do 4 (split; [done|]). split; [done|].
    rewrite last_snoc. do 3 f_equal.
    rewrite (reply_text_answer _ (booking_summary (booking_data s2))).
    + unfold booking_summary.
      by rewrite (dict_get_default_set _ _ _ _ Hls),
        (dict_get_default_set _ _ _ _ Hld), (dict_get_default_set _ _ _ _ Hl).
    + simpl. by rewrite Hbd.
    + done.
  - unfold visited in Hv. simpl in Hv.
    rewrite !elem_of_cons, elem_of_nil in Hv. intuition discriminate.
  - unfold visited in Hv. simpl in Hv.
    rewrite !elem_of_cons, elem_of_nil in Hv. intuition discriminate.
Qed.

Lemma ask_for_information_answer (state : BookingState) :
  ask_for_information_node state =
  Ok (set_answer
        (Some (if has_field (booking_data state) "service"
               then if has_field (booking_data state) "appointment_date"
                    then ask_details
                    else ask_date (dict_get (booking_data state) "service")
               else ask_service))
        state).
Proof.
  unfold ask_for_information_node, has_field.
  destruct (truthy (dict_get (booking_data state) "service")) eqn:Hs; simpl;
    [|done].
  destruct (truthy (dict_get (booking_data state) "appointment_date")); simpl;
    [done|].
  destruct (has_field_lookup _ _ Hs) as (service & Hl & _).
  unfold dict_item, dict_get. by rewrite Hl.
Qed.

(** X17: while service or date is missing, a traversal asks and confirms
    nothing.  If the state it ends in lacks the service, the last message
    asks for the service; if it has the service but lacks the date, the
    last message asks for the date and names the service; and the flag is
    the one the traversal started with. *)
Theorem incomplete_booking_asks (state state' : BookingState) :
  invoke state = Ok state' ->
  has_field (booking_data state') "service"
  && has_field (booking_data state') "appointment_date" = false ->
  booking_confirmed state' = booking_confirmed state /\
  last (messages state') =
    Some (AIMessage (ContentStr
      (if has_field (booking_data state') "service"
       then "Perfect, a " +:+ fstr (dict_get (booking_data state') "service") +:+
            ". When do you need it? (today, tomorrow, day after tomorrow)"
       else "Hi! What service do you need? We have haircut, beard trim, and styling."))).
Proof.
  intros H Hinc.
  apply invoke_cases in H
    as (s2 & He & [(R1 & _ & ->)|[(R1 & _ & ->)|(R1 & s3 & Ha & ->)]]).
  - apply route_after_extraction_check in R1 as [Hs Hd]. simpl in Hinc.
    rewrite !check_availability_keeps in Hinc by done. by rewrite Hs, Hd in Hinc.
  - apply route_after_extraction_check in R1 as [Hs Hd]. simpl in Hinc.
    rewrite !check_availability_keeps in Hinc by done. by rewrite Hs, Hd in Hinc.
  - rewrite ask_for_information_answer in Ha. injection Ha as <-.
    apply route_after_extraction_ask in R1. simpl in *. split.
    + apply extract_inv in He as [[_ ->]|(text & _ & ->)]; [done|].
      simpl in *. unfold gate, all_fields. by rewrite R1.
    + rewrite last_snoc. do 3 f_equal.
      destruct (has_field (booking_data s2) "service") eqn:Hs.
      * simpl in R1. rewrite R1. by apply reply_text_answer.
      * by apply reply_text_answer.
Qed.




(** X19: a confirmation is never asked for twice.  From a state whose flag
    is already true and whose service and date are set, a traversal whose
    latest message yields an offered time goes through the confirmation
    node at once, whatever else the message says. *)
Theorem confirmed_flag_finalizes_next_offered_time
  (state : BookingState) (text t : string) :
  booking_confirmed state = true ->
  has_field (booking_data state) "service" = true ->
  has_field (booking_data state) "appointment_date" = true ->
  last_message_text (messages state) = Ok text ->
  detected_time (lower text) = Some t ->
  t ∈ available_times ->
  exists tr, trace state = Ok tr /\ confirm_booking ∈ visited tr.
Proof.
  intros Hc Hs Hd Ht Hdet Hin.
  pose proof (extract_read (detect_intent_node state) text Ht) as He.
  simpl in He.
  set (d := merge (lower text) (booking_data state)) in *.
  assert (d !! "appointment_time" = Some (Some t)) as Hl.
  { subst d. rewrite lookup_merge, Hdet. by case_decide. }
  assert (t <> "") as Hne.
  { by apply clock_time_nonempty, (detected_time_clock (lower text)). }
  destruct (trace_total _ _ He) as [tr Htr]. exists tr. split; [done|].
  apply trace_inv in Htr as (s2 & He2 & Hpath).
  assert (s2 = set_booking_confirmed true
                 (set_booking_data d (detect_intent_node state))) as ->.
  { rewrite He in He2. injection He2 as <-. by rewrite gate_monotone. }
  assert (has_field d "service" = true) as Hs2 by by apply merge_keeps_field.
  assert (has_field d "appointment_date" = true) as Hd2
    by by apply merge_keeps_field.
  assert (has_field d "appointment_time" = true) as Ht2.
  { unfold has_field, dict_get. rewrite Hl. simpl.
    by apply negb_true_iff, String.eqb_neq. }
  assert (check_availability_node
            (set_booking_confirmed true
               (set_booking_data d (detect_intent_node state)))
          = set_answer
              (Some (confirm_question (dict_get_default d "service" "service")
                       (dict_get_default d "appointment_date" "date")
                       (dict_get d "appointment_time")))
              (set_booking_confirmed true
                 (set_booking_data d (detect_intent_node state)))) as Hcheck.
  { unfold check_availability_node. simpl.
    unfold has_field in Ht2. rewrite Ht2.
    assert (list_in (dict_get d "appointment_time") available_times = true) as ->;
      [|done].
    rewrite (dict_get_set _ _ _ Hl). by apply list_in_elem. }
  destruct Hpath as [(_ & _ & ->)|[(_ & R2 & _)|(R1 & _)]].
  - unfold visited. simpl. rewrite !elem_of_cons. auto.
  - rewrite Hcheck in R2. unfold route_after_availability in R2. simpl in R2.
    by rewrite Ht2 in R2.
  - unfold route_after_extraction in R1. simpl in R1.
    by rewrite Hs2, Hd2 in R1.
Qed.

End TraversalsMore.

(** Runs on sample conversations. *)

Section TraversalsMoreRuns.
Import PyStr BookingNodes BookingGraph Notions.

Lemma traversal_paths_witness :
  visited Traces.yes_trace
    = [detect_intent; extract_booking_data; check_availability;
       confirm_booking; respond_user] /\
  all_fields (booking_data Traces.yes_final) = true /\
  booking_confirmed Traces.yes_final = true.
Proof.
  destruct (traversal_paths States.awaiting_yes Traces.yes_trace)
    as [[H _]|[[H _]|H]]; [vm_compute; reflexivity| | |exact H].
  - vm_compute in H. discriminate.
  - vm_compute in H. discriminate.
Defined.

Lemma invoke_raises_only_on_unreadable_witness :
  last_message_text
    [HumanMessage (ContentList [BlockDict {[ "type" := VStr "text"; "text" := VOther ]}])]
    = Raise AttributeError /\
  (AttributeError = IndexError \/ AttributeError = TypeError \/
   AttributeError = KeyError \/ AttributeError = AttributeError).
Proof.
  destruct (invoke_raises_only_on_unreadable
              (set_messages
                 [HumanMessage
                    (ContentList
                       [BlockDict {[ "type" := VStr "text"; "text" := VOther ]}])]
                 initial_state)
              AttributeError) as (_ & H1 & H2); [reflexivity|].
  split; [exact H1|exact H2].
Defined.

Lemma second_traversal_raises_witness :
  invoke Traces.yes_final = Raise TypeError.
Proof.
  apply (second_traversal_raises States.awaiting_yes Traces.yes_final).
  vm_compute. reflexivity.
Defined.

Lemma traversal_keeps_progress_witness :
  intent Traces.yes_final = Some "book" /\
  has_field (booking_data Traces.yes_final) "service" = true.
Proof.
  destruct (traversal_keeps_progress States.awaiting_yes Traces.yes_final)
    as (Hi & _ & Hf & _); [vm_compute; reflexivity|].
  split; [exact Hi|]. apply Hf; [discriminate|reflexivity].
Defined.

Lemma finalized_booking_witness :
  exists service date time,
    booking_data Traces.yes_final !! "service" = Some (Some service) /\
    booking_data Traces.yes_final !! "appointment_date" = Some (Some date) /\
    booking_data Traces.yes_final !! "appointment_time" = Some (Some time) /\
    time ∈ available_times /\
    booking_confirmed Traces.yes_final = true /\
    last (messages Traces.yes_final) =
      Some (AIMessage (ContentStr
        ("Excellent! Your " +:+ service +:+ " appointment for " +:+ date +:+
         " at " +:+ time +:+ " is confirmed. See you soon! 🎉"))).
Proof.
  apply (finalized_booking States.awaiting_yes Traces.yes_trace).
  - vm_compute. reflexivity.
  - apply (bool_decide_unpack _). vm_compute. exact I.
Defined.

Lemma incomplete_booking_asks_witness :
  exists state',
    invoke (set_messages [studio_message "a beard trim please"] initial_state)
      = Ok state' /\
    last (messages state') =
      Some (AIMessage (ContentStr
        "Perfect, a beard trim. When do you need it? (today, tomorrow, day after tomorrow)")).
Proof.
  eexists. split; [vm_compute; reflexivity|].
  eapply proj2.
  eapply (incomplete_booking_asks
            (set_messages [studio_message "a beard trim please"] initial_state));
    vm_compute; reflexivity.
Defined.


Lemma confirmed_flag_finalizes_next_offered_time_witness :
  exists tr,
    trace (set_messages
             (messages States.confirmed_without_time
              ++ [studio_message "then at 15:00"])
             States.confirmed_without_time) = Ok tr /\
    confirm_booking ∈ visited tr.
Proof.
  apply (confirmed_flag_finalizes_next_offered_time
           (set_messages
              (messages States.confirmed_without_time
               ++ [studio_message "then at 15:00"])
              States.confirmed_without_time)
           "then at 15:00" "15:00"); try reflexivity.
  apply (bool_decide_unpack _). vm_compute. exact I.
Defined.

End TraversalsMoreRuns.
